(** * OpenAI-compatible Workers AI worker: request/response translation

    A shallow embedding of the worker's dispatcher ([fetch]) and of its three
    handlers ([handleModels], [handleChatCompletions], [handleEmbeddings]),
    followed by the properties of the translation layer.

    Conventions of the embedding.
    - A JavaScript value is a [value]; an object keeps its properties in
      insertion order (the order [JSON.stringify] emits them in).
    - An [async] function is a computation in the monad [M]: it threads the
      host's state and either completes normally or throws.
    - A [Response] keeps, as its body, the value that the source hands to
      [JSON.stringify] ([None] for the [null] body of the pre-flight reply). *)

From Stdlib Require Import ZArith List String Bool Lia DecimalString.
Import ListNotations.

Local Open Scope string_scope.
Local Open Scope list_scope.
Local Open Scope Z_scope.

(** ** JavaScript values *)

#[local] Set Warnings "-register-all".

(** Numbers are carried as integers: the worker only copies a number, tests
    it for being zero, or (for the clock) divides and prints it. *)
Inductive value : Type :=
| JUndefined
| JNull
| JBool (b : bool)
| JNum (n : Z)
| JStr (s : string)
| JArr (elts : list value)
| JObj (props : list (string * value)).

(** What a [throw] carries: an instance of [Error] (its [name] and its
    [message] property), or any other value. *)
Inductive thrown : Type :=
| ErrorObj (name : string) (message : value)
| NonError (v : value).

(** How an awaited call ends. *)
Inductive completion (A : Type) : Type :=
| Normal (a : A)
| Throw (e : thrown).
Arguments Normal {A} a.
Arguments Throw {A} e.

(** [ToBoolean]: the test behind [!v] and [a || b]. *)
Definition truthy (v : value) : bool :=
  match v with
  | JUndefined | JNull => false
  | JBool b => b
  | JNum n => negb (n =? 0)
  | JStr s => negb (s =? "")%string
  | JArr _ | JObj _ => true
  end.

(** [a || b] *)
Definition or_else (a b : value) : value := if truthy a then a else b.

(** [Array.isArray] *)
Definition isArray (v : value) : bool :=
  match v with JArr _ => true | _ => false end.

Definition nullish (v : value) : bool :=
  match v with JUndefined | JNull => true | _ => false end.

(** ** Objects as ordered property lists *)

Definition object (A : Type) : Type := list (string * A).

Fixpoint lookup {A : Type} (k : string) (o : object A) : option A :=
  match o with
  | [] => None
  | (k', v) :: o' => if (k' =? k)%string then Some v else lookup k o'
  end.

(** Defining a property: an existing key keeps its place and takes the new
    value, a new key goes to the end. *)
Fixpoint define {A : Type} (k : string) (v : A) (o : object A) : object A :=
  match o with
  | [] => [(k, v)]
  | (k', v') :: o' =>
      if (k' =? k)%string then (k', v) :: o' else (k', v') :: define k v o'
  end.

(** The object literal [{ ...base, ...extra }] with [base] already built. *)
Definition spread {A : Type} (base extra : object A) : object A :=
  fold_left (fun o kv => define (fst kv) (snd kv) o) extra base.

Definition string_of_nat (n : nat) : string :=
  NilZero.string_of_uint (Nat.to_uint n).

Definition string_of_Z (z : Z) : string :=
  NilZero.string_of_int (Z.to_int z).

Fixpoint indexed {A : Type} (i : nat) (l : list A) : object A :=
  match l with
  | [] => []
  | x :: l' => (string_of_nat i, x) :: indexed (S i) l'
  end.

Fixpoint chars (s : string) : list value :=
  match s with
  | EmptyString => []
  | String c s' => JStr (String c EmptyString) :: chars s'
  end.

(** The own enumerable properties of a (non-nullish) value, as an object
    rest pattern collects them. *)
Definition own_props (v : value) : object value :=
  match v with
  | JObj o => o
  | JArr l => indexed 0 l
  | JStr s => indexed 0 (chars s)
  | _ => []
  end.

(** [v.k] for a non-nullish [v] and a key [k] that is neither an index nor
    inherited from a prototype (the worker reads [messages], [model],
    [stream], [input], [response] and [data] only): found on an object that
    has it, [undefined] everywhere else. *)
Definition prop (v : value) (k : string) : value :=
  match v with
  | JObj o => match lookup k o with Some x => x | None => JUndefined end
  | _ => JUndefined
  end.

(** A destructuring default [k = d]: used when the property is [undefined]. *)
Definition default_to (d v : value) : value :=
  match v with JUndefined => d | _ => v end.

(** The rest pattern [...others] after the keys [taken]. *)
Definition rest_props (taken : list string) (v : value) : object value :=
  filter (fun kv => negb (existsb (String.eqb (fst kv)) taken)) (own_props v).

(** ** Requests and responses *)

(** [json] is what [await request.json()] yields for this request: the
    parsed body, or the parser's fault. *)
Record Request : Type := {
  method : string;
  pathname : string;
  json : completion value
}.

Record Response : Type := {
  status : Z;
  headers : object string;
  body : option value
}.

(** [new Response(body, { status, headers })]; the status defaults to 200. *)
Definition Response_new (b : option value) (st : option Z)
    (h : object string) : Response :=
  {| status := match st with Some s => s | None => 200 end;
     headers := h;
     body := b |}.

(** ** The host: the [AI] binding, the clock and the engine's faults *)

Class Host : Type := {
  St : Type;
  (** [env.AI.run(model, params)] *)
  AI_run : value -> value -> St -> completion value * St;
  (** [Date.now()] *)
  Date_now : St -> Z * St;
  (** the message of the [TypeError] raised on reading key [k] of a nullish
      value *)
  TypeError_message : value -> string -> value
}.

Section Worker.

Context `{Host}.

(** One backend invocation, with how it ended. *)
Record ai_call : Type := {
  call_model : value;
  call_params : value;
  call_result : completion value
}.

Record World : Type := {
  host : St;
  ai_calls : list ai_call;
  console : list (string * thrown)
}.

Definition M (A : Type) : Type := World -> completion A * World.

Definition ret {A : Type} (a : A) : M A := fun w => (Normal a, w).

Definition throw {A : Type} (e : thrown) : M A := fun w => (Throw e, w).

Definition bind {A B : Type} (m : M A) (k : A -> M B) : M B :=
  fun w =>
    match m w with
    | (Normal a, w') => k a w'
    | (Throw e, w') => (Throw e, w')
    end.

(** [try { m } catch (error) { handler error }] *)
Definition try_catch {A : Type} (m : M A) (handler : thrown -> M A) : M A :=
  fun w =>
    match m w with
    | (Normal a, w') => (Normal a, w')
    | (Throw e, w') => handler e w'
    end.

Notation "x <- m ;; k" := (bind m (fun x => k))
  (at level 61, m at next level, right associativity).
Notation "m ;;; k" := (bind m (fun _ => k))
  (at level 61, right associativity).

(** The world after one backend call that ended with [r] in host state
    [s]: the call is recorded whatever its outcome. *)
Definition called (w : World) (model params : value) (r : completion value)
    (s : St) : World :=
  {| host := s;
     ai_calls := ai_calls w ++ [{| call_model := model;
                                   call_params := params;
                                   call_result := r |}];
     console := console w |}.

(** [await env.AI.run(model, params)] *)
Definition run_AI (model params : value) : M value :=
  fun w =>
    let (r, s) := AI_run model params (host w) in
    (r, called w model params r s).

Definition now : M Z :=
  fun w =>
    let (t, s) := Date_now (host w) in
    (Normal t, {| host := s; ai_calls := ai_calls w; console := console w |}).

Definition console_error (label : string) (e : thrown) : M unit :=
  fun w =>
    (Normal tt, {| host := host w;
                   ai_calls := ai_calls w;
                   console := console w ++ [(label, e)] |}).

(** [await request.json()] *)
Definition request_json (request : Request) : M value :=
  fun w => (json request, w).

(** Reading a property, or destructuring, faults on [null] and
    [undefined]. *)
Definition get_prop (v : value) (k : string) : M value :=
  if nullish v
  then throw (ErrorObj "TypeError" (TypeError_message v k))
  else ret (prop v k).

(** [error instanceof Error ? error.message : 'Unknown error'] *)
Definition error_message (e : thrown) : value :=
  match e with
  | ErrorObj _ m => m
  | NonError _ => JStr "Unknown error"
  end.

(** [{ 'Content-Type': 'application/json', ...corsHeaders }] *)
Definition json_headers (corsHeaders : object string) : object string :=
  spread [("Content-Type", "application/json")] corsHeaders.

Definition error_response (st : Z) (payload : object value)
    (corsHeaders : object string) : Response :=
  Response_new (Some (JObj payload)) (Some st) (json_headers corsHeaders).

(** ** handleModels *)

Definition model_descriptor (id : string) : value :=
  JObj [("id", JStr id);
        ("object", JStr "model");
        ("created", JNum 1677610602);
        ("owned_by", JStr "cloudflare")].

Definition models : value :=
  JObj [("object", JStr "list");
        ("data", JArr [model_descriptor "@cf/meta/llama-3.3-70b-instruct-fp8-fast";
                       model_descriptor "@cf/meta/llama-3.1-70b-instruct";
                       model_descriptor "@cf/meta/llama-3-8b-instruct";
                       model_descriptor "@cf/baai/bge-large-en-v1.5";
                       model_descriptor "@cf/baai/bge-base-en-v1.5"])].

Definition handleModels (corsHeaders : object string) : Response :=
  Response_new (Some models) None (json_headers corsHeaders).

(** ** handleChatCompletions *)

Definition default_chat_model : value :=
  JStr "@cf/meta/llama-3.3-70b-instruct-fp8-fast".

(** The second argument of the chat call:
    [{ messages, stream, ...otherParams }]. *)
Definition chat_params (messages stream : value)
    (otherParams : object value) : value :=
  JObj (spread [("messages", messages); ("stream", stream)] otherParams).

Definition chat_completion (id : string) (created : Z)
    (model content : value) : value :=
  JObj [("id", JStr id);
        ("object", JStr "chat.completion");
        ("created", JNum created);
        ("model", model);
        ("choices",
         JArr [JObj [("index", JNum 0);
                     ("message", JObj [("role", JStr "assistant");
                                       ("content", content)]);
                     ("finish_reason", JStr "stop")]]);
        ("usage", JObj [("prompt_tokens", JNum 0);
                        ("completion_tokens", JNum 0);
                        ("total_tokens", JNum 0)])].

Definition handleChatCompletions (request : Request)
    (corsHeaders : object string) : M Response :=
  if negb (method request =? "POST")%string then
    ret (error_response 405 [("error", JStr "Method not allowed")] corsHeaders)
  else
    body <- request_json request ;;
    messages <- get_prop body "messages" ;;
    let model := default_to default_chat_model (prop body "model") in
    let stream := default_to (JBool false) (prop body "stream") in
    let otherParams := rest_props ["messages"; "model"; "stream"] body in
    if negb (truthy messages) || negb (isArray messages) then
      ret (error_response 400 [("error", JStr "Messages array is required")]
             corsHeaders)
    else
      try_catch
        (response <- run_AI model (chat_params messages stream otherParams) ;;
         t_id <- now ;;
         t_created <- now ;;
         text <- get_prop response "response" ;;
         let openaiResponse :=
           chat_completion ("chatcmpl-" ++ string_of_Z t_id)%string
             (t_created / 1000) model (or_else text response) in
         ret (Response_new (Some openaiResponse) None
                (json_headers corsHeaders)))
        (fun error =>
           console_error "Chat completion error:" error ;;;
           ret (error_response 500
                  [("error", JStr "Failed to generate completion");
                   ("message", error_message error)]
                  corsHeaders)).

(** ** handleEmbeddings *)

Definition default_embedding_model : value :=
  JStr "@cf/baai/bge-large-en-v1.5".

Definition embedding_entry (vector : value) (i : nat) : value :=
  JObj [("object", JStr "embedding");
        ("embedding", vector);
        ("index", JNum (Z.of_nat i))].

(** The loop [for (let i = 0; i < inputs.length; i++)], entered at index
    [i] with [rest] the elements from [inputs[i]] on and [embeddings] the
    entries pushed so far. *)
Fixpoint embed_loop (model : value) (rest : list value) (i : nat)
    (embeddings : list value) : M (list value) :=
  match rest with
  | [] => ret embeddings
  | x :: rest' =>
      response <- run_AI model (JObj [("text", x)]) ;;
      vector <- get_prop response "data" ;;
      embed_loop model rest' (S i)
        (embeddings ++ [embedding_entry (or_else vector response) i])
  end.

(** [Array.isArray(input) ? input : [input]] *)
Definition normalize_input (input : value) : list value :=
  match input with
  | JArr l => l
  | _ => [input]
  end.

Definition embedding_list (data : list value) (model : value) : value :=
  JObj [("object", JStr "list");
        ("data", JArr data);
        ("model", model);
        ("usage", JObj [("prompt_tokens", JNum 0);
                        ("total_tokens", JNum 0)])].

Definition handleEmbeddings (request : Request)
    (corsHeaders : object string) : M Response :=
  if negb (method request =? "POST")%string then
    ret (error_response 405 [("error", JStr "Method not allowed")] corsHeaders)
  else
    body <- request_json request ;;
    input <- get_prop body "input" ;;
    let model := default_to default_embedding_model (prop body "model") in
    if negb (truthy input) then
      ret (error_response 400 [("error", JStr "Input is required")]
             corsHeaders)
    else
      try_catch
        (let inputs := normalize_input input in
         embeddings <- embed_loop model inputs 0 [] ;;
         let openaiResponse := embedding_list embeddings model in
         ret (Response_new (Some openaiResponse) None
                (json_headers corsHeaders)))
        (fun error =>
           console_error "Embeddings error:" error ;;;
           ret (error_response 500
                  [("error", JStr "Failed to generate embeddings");
                   ("message", error_message error)]
                  corsHeaders)).

(** ** The dispatcher *)

Definition corsHeaders : object string :=
  [("Access-Control-Allow-Origin", "*");
   ("Access-Control-Allow-Methods", "GET, POST, PUT, DELETE, OPTIONS");
   ("Access-Control-Allow-Headers", "Content-Type, Authorization")].

Definition info_document : value :=
  JObj [("message", JStr "OpenAI-compatible Workers AI API");
        ("endpoints", JObj [("chat", JStr "/v1/chat/completions");
                            ("embeddings", JStr "/v1/embeddings");
                            ("models", JStr "/v1/models")]);
        ("documentation",
         JStr "https://developers.cloudflare.com/workers-ai/configuration/open-ai-compatibility/")].

Definition fetch (request : Request) : M Response :=
  if (method request =? "OPTIONS")%string then
    ret (Response_new None None corsHeaders)
  else
    let path := pathname request in
    try_catch
      (if (path =? "/")%string then
         ret (Response_new (Some info_document) None
                (json_headers corsHeaders))
       else if (path =? "/v1/models")%string then
         ret (handleModels corsHeaders)
       else if (path =? "/v1/chat/completions")%string then
         handleChatCompletions request corsHeaders
       else if (path =? "/v1/embeddings")%string then
         handleEmbeddings request corsHeaders
       else
         ret (error_response 404 [("error", JStr "Not found")] corsHeaders))
      (fun error =>
         console_error "Error:" error ;;;
         ret (error_response 500
                [("error", JStr "Internal server error");
                 ("message", error_message error)]
                corsHeaders)).

(** The dispatcher's answer to a fault [e] that reaches its [catch]. *)
Definition internal_error (e : thrown) : Response :=
  error_response 500
    [("error", JStr "Internal server error"); ("message", error_message e)]
    corsHeaders.

End Worker.

(** ** Reading a response *)

(** The value a client parses out of the response body. *)
Definition json_of (r : Response) : value :=
  match body r with Some v => v | None => JUndefined end.

(** [v[i]] on an array. *)
Definition item (v : value) (i : nat) : value :=
  match v with JArr l => nth i l JUndefined | _ => JUndefined end.

(** [choices[0].message.content], [choices[0].finish_reason] and [usage.k]
    of a chat response. *)
Definition content_of (r : Response) : value :=
  prop (prop (item (prop (json_of r) "choices") 0) "message") "content".

Definition finish_reason_of (r : Response) : value :=
  prop (item (prop (json_of r) "choices") 0) "finish_reason".

Definition usage_of (r : Response) (k : string) : value :=
  prop (prop (json_of r) "usage") k.

(** The three CORS headers, as a client finds them on a response. *)
Definition carries_cors (r : Response) : Prop :=
  lookup "Access-Control-Allow-Origin" (headers r) = Some "*"
  /\ lookup "Access-Control-Allow-Methods" (headers r)
     = Some "GET, POST, PUT, DELETE, OPTIONS"
  /\ lookup "Access-Control-Allow-Headers" (headers r)
     = Some "Content-Type, Authorization".

(** Whether a backend call came back with a value or with a fault. *)
Definition returned (c : ai_call) : Prop :=
  exists v, call_result c = Normal v.

Definition rejected (c : ai_call) : Prop :=
  exists e, call_result c = Throw e.

(** What the loop has done when it stops.  Either it ran to the end: one
    call per element, each of which returned, and one new entry per element,
    numbered from the index the loop was entered at.  Or it stopped at the
    first call that was rejected (or that returned [null] or [undefined], on
    which reading [data] faults): every call before that one returned, and
    no call was made after it. *)
Definition loop_outcome (rest : list value) (i : nat) (acc : list value)
    (r : completion (list value)) (calls : list ai_call) : Prop :=
  match r with
  | Normal out =>
      Forall returned calls
      /\ List.length calls = List.length rest
      /\ exists new,
          out = acc ++ new
          /\ List.length new = List.length rest
          /\ forall k, (k < List.length rest)%nat ->
               prop (nth k new JUndefined) "index" = JNum (Z.of_nat (i + k))
  | Throw e =>
      exists pre c,
        calls = pre ++ [c]
        /\ Forall returned pre
        /\ (List.length pre < List.length rest)%nat
        /\ (call_result c = Throw e
            \/ exists v, call_result c = Normal v /\ nullish v = true)
  end.

(** ** Sample hosts and requests *)

(** A backend that plays a script: each call takes the next outcome of the
    list, and rejects once the script is used up.  The clock stands still. *)
Definition scripted_host : Host :=
  {| St := list (completion value);
     AI_run := fun _ _ script =>
       match script with
       | [] => (Throw (ErrorObj "Error" (JStr "script exhausted")), [])
       | r :: script' => (r, script')
       end;
     Date_now := fun script => (1748131200123, script);
     TypeError_message := fun _ k =>
       JStr ("Cannot read properties (reading '" ++ k ++ "')")%string |}.

Definition world0 (script : list (completion value)) : @World scripted_host :=
  @Build_World scripted_host script [] [].

Definition post (path : string) (b : value) : Request :=
  {| method := "POST"; pathname := path; json := Normal b |}.

Definition hello_messages : value :=
  JArr [JObj [("role", JStr "user"); ("content", JStr "Hello!")]].

Definition chat_request : Request :=
  post "/v1/chat/completions"
    (JObj [("model", JStr "@cf/meta/llama-3.1-8b-instruct");
           ("messages", hello_messages);
           ("max_tokens", JNum 150)]).

Definition batch_request : Request :=
  post "/v1/embeddings"
    (JObj [("input", JArr [JStr "a"; JStr "b"; JStr "c"])]).

Definition scalar_request : Request :=
  post "/v1/embeddings"
    (JObj [("model", JStr "@cf/baai/bge-large-en-v1.5");
           ("input", JStr "Hello world")]).

Definition empty_batch_request : Request :=
  post "/v1/embeddings" (JObj [("input", JArr [])]).

Definition no_input_request : Request :=
  post "/v1/embeddings" (JObj [("model", JStr "@cf/baai/bge-base-en-v1.5")]).

Definition no_messages_request : Request :=
  post "/v1/chat/completions" (JObj [("model", JStr "m")]).

(** The JSON text [null] as a body. *)
Definition null_body_request (path : string) : Request := post path JNull.

Definition garbled_request (path : string) : Request :=
  {| method := "POST"; pathname := path;
     json := Throw (ErrorObj "SyntaxError" (JStr "Unexpected token")) |}.

Definition get_request (path : string) : Request :=
  {| method := "GET"; pathname := path;
     json := Throw (ErrorObj "SyntaxError" (JStr "Unexpected end of JSON input")) |}.

Definition options_request (path : string) : Request :=
  {| method := "OPTIONS"; pathname := path;
     json := Throw (ErrorObj "SyntaxError" (JStr "Unexpected end of JSON input")) |}.

(** A backend result of the wrapped kind: [{ data: [[a, b]] }]. *)
Definition vector (a b : Z) : value :=
  JObj [("data", JArr [JArr [JNum a; JNum b]])].

(** ** Vocabulary for the call log and the routes *)

(** The second argument of an embedding call: [{ text: x }]. *)
Definition text_param (x : value) : value := JObj [("text", x)].

(** A call that came back with a value on which a property can be read. *)
Definition answered (c : ai_call) : Prop :=
  exists r, call_result c = Normal r /\ nullish r = false.

(** A call that came back with [null] or [undefined]. *)
Definition unreadable (c : ai_call) : Prop :=
  exists v, call_result c = Normal v /\ nullish v = true.

(** The reply a handler takes out of a backend result [r] under the field
    [k]: [r.k || r]. *)
Definition normalized (k : string) (r : value) : value :=
  if truthy (prop r k) then prop r k else r.

(** The paths the dispatcher routes. *)
Definition routed (path : string) : Prop :=
  path = "/" \/ path = "/v1/models"
  \/ path = "/v1/chat/completions" \/ path = "/v1/embeddings".

(** The body of a request is unusable when it does not parse, or parses to
    [null] (or [undefined]). *)
Definition unusable_body (request : Request) : Prop :=
  (exists e, json request = Throw e)
  \/ (exists b, json request = Normal b /\ nullish b = true).

(** The keys of an object, in order. *)
Definition keys {A : Type} (o : object A) : list string := map fst o.

(** A backend whose clock ticks: the host state is the time in milliseconds,
    every reading of the clock advances it by 7, and every call is answered
    with [{ response: "ok" }]. *)
Definition ticking_host : Host :=
  {| St := Z;
     AI_run := fun _ _ t => (Normal (JObj [("response", JStr "ok")]), t);
     Date_now := fun t => (t, t + 7);
     TypeError_message := fun _ _ => JStr "not an object" |}.

Definition tick0 (t : Z) : @World ticking_host :=
  @Build_World ticking_host t [] [].

(** * Properties *)

(** Case analysis on the innermost scrutinee of the goal. *)
Ltac crunch :=
  repeat match goal with
    | |- context [match ?x with _ => _ end] =>
        lazymatch x with
        | context [match _ with _ => _ end] => fail
        | _ => destruct x; cbv beta iota
        end
    end.

Ltac unfold_monad :=
  unfold bind, try_catch, request_json, get_prop, run_AI, called, now,
    console_error, ret, throw.

Section Properties.

Context `{Host}.

Implicit Types (request : Request) (w : World) (h : object string).

(** ** Shared facts *)

Lemma post_guard request :
  method request = "POST" -> negb (method request =? "POST")%string = false.
Proof. intros ->. reflexivity. Qed.

Lemma non_post_guard request :
  method request <> "POST" -> negb (method request =? "POST")%string = true.
Proof. intros Hm. apply String.eqb_neq in Hm. now rewrite Hm. Qed.

Lemma prop_nullish v k : prop v k <> JUndefined -> nullish v = false.
Proof. destruct v; simpl; congruence. Qed.

Lemma get_prop_ok v k w :
  nullish v = false -> get_prop v k w = (Normal (prop v k), w).
Proof. intros Hv. unfold get_prop. now rewrite Hv. Qed.

Lemma fetch_chat request w :
  method request <> "OPTIONS" ->
  pathname request = "/v1/chat/completions" ->
  fetch request w =
    match handleChatCompletions request corsHeaders w with
    | (Normal resp, w') => (Normal resp, w')
    | (Throw e, w') =>
        (Normal (internal_error e),
         {| host := host w'; ai_calls := ai_calls w';
            console := console w' ++ [("Error:", e)] |})
    end.
Proof.
  intros Hm Hp. unfold fetch. apply String.eqb_neq in Hm. rewrite Hm, Hp.
  cbn [String.eqb Ascii.eqb Bool.eqb]. unfold try_catch.
  destruct (handleChatCompletions request corsHeaders w) as [[resp|e] w'];
    reflexivity.
Qed.

Lemma fetch_embeddings request w :
  method request <> "OPTIONS" ->
  pathname request = "/v1/embeddings" ->
  fetch request w =
    match handleEmbeddings request corsHeaders w with
    | (Normal resp, w') => (Normal resp, w')
    | (Throw e, w') =>
        (Normal (internal_error e),
         {| host := host w'; ai_calls := ai_calls w';
            console := console w' ++ [("Error:", e)] |})
    end.
Proof.
  intros Hm Hp. unfold fetch. apply String.eqb_neq in Hm. rewrite Hm, Hp.
  cbn [String.eqb Ascii.eqb Bool.eqb]. unfold try_catch.
  destruct (handleEmbeddings request corsHeaders w) as [[resp|e] w'];
    reflexivity.
Qed.

(** ** Wrong method *)

(** C8: on a request whose method is not POST, the chat handler and the
    embeddings handler each answer with status 405, and the backend is not
    called (the call log is the one they were entered with). *)
Theorem non_post_is_method_not_allowed request h w :
  method request <> "POST" ->
  (exists resp w',
      handleChatCompletions request h w = (Normal resp, w')
      /\ status resp = 405 /\ ai_calls w' = ai_calls w)
  /\ (exists resp w',
      handleEmbeddings request h w = (Normal resp, w')
      /\ status resp = 405 /\ ai_calls w' = ai_calls w).
Proof.
  intros Hm. apply non_post_guard in Hm.
  unfold handleChatCompletions, handleEmbeddings. rewrite Hm.
  split; eexists; exists w; repeat split; reflexivity.
Qed.

(** The same through the dispatcher, for every method but the pre-flight
    one. *)
Lemma fetch_non_post request w :
  method request <> "POST" -> method request <> "OPTIONS" ->
  pathname request = "/v1/chat/completions"
  \/ pathname request = "/v1/embeddings" ->
  exists resp,
    fetch request w = (Normal resp, w) /\ status resp = 405.
Proof.
  intros Hm Ho [Hp|Hp];
    [rewrite (fetch_chat _ _ Ho Hp) | rewrite (fetch_embeddings _ _ Ho Hp)];
    unfold handleChatCompletions, handleEmbeddings;
    rewrite (non_post_guard _ Hm); eexists; split; reflexivity.
Qed.

(** ** A body that does not parse *)

(** C9: when [request.json()] faults on a POST to the chat or embeddings
    path, the handler itself ends with that fault (its own [try] does not
    cover the parse, and it leaves the world as it was), and the dispatcher
    turns it into the 500 "Internal server error" envelope carrying the
    fault's message; the status is not 400 and the backend is not called. *)
Theorem unparseable_body_is_internal_error request w e :
  method request = "POST" ->
  json request = Throw e ->
  pathname request = "/v1/chat/completions"
  \/ pathname request = "/v1/embeddings" ->
  (forall h, handleChatCompletions request h w = (Throw e, w))
  /\ (forall h, handleEmbeddings request h w = (Throw e, w))
  /\ exists resp w',
      fetch request w = (Normal resp, w')
      /\ status resp = 500
      /\ status resp <> 400
      /\ json_of resp = JObj [("error", JStr "Internal server error");
                              ("message", error_message e)]
      /\ ai_calls w' = ai_calls w.
Proof.
  intros Hm Hj Hp.
  assert (Hc : forall h, handleChatCompletions request h w = (Throw e, w)).
  { intros h. unfold handleChatCompletions. rewrite (post_guard _ Hm).
    unfold bind, request_json. now rewrite Hj. }
  assert (He : forall h, handleEmbeddings request h w = (Throw e, w)).
  { intros h. unfold handleEmbeddings. rewrite (post_guard _ Hm).
    unfold bind, request_json. now rewrite Hj. }
  assert (Ho : method request <> "OPTIONS") by (rewrite Hm; discriminate).
  split; [exact Hc|]. split; [exact He|].
  destruct Hp as [Hp|Hp];
    [rewrite (fetch_chat _ _ Ho Hp), Hc
    | rewrite (fetch_embeddings _ _ Ho Hp), He];
    eexists; eexists; (split; [reflexivity|]);
    repeat split; simpl; discriminate.
Qed.

(** ** Headers *)

Lemma chat_headers request h w resp w' :
  handleChatCompletions request h w = (Normal resp, w') ->
  headers resp = json_headers h.
Proof.
  unfold handleChatCompletions. unfold_monad.
  crunch; intros E; inversion E; reflexivity.
Qed.

Lemma embeddings_headers request h w resp w' :
  handleEmbeddings request h w = (Normal resp, w') ->
  headers resp = json_headers h.
Proof.
  unfold handleEmbeddings. unfold_monad.
  crunch; intros E; inversion E; reflexivity.
Qed.

Lemma cors_of_json_headers resp :
  headers resp = json_headers corsHeaders -> carries_cors resp.
Proof. intros E. unfold carries_cors. rewrite E. repeat split. Qed.

(** C7: the dispatcher always answers (no fault leaves it), and its answer
    carries the three CORS headers whatever the path, the method and the
    outcome; on the OPTIONS method it answers before any routing, with
    status 200, no body and exactly the CORS headers, and leaves the world
    untouched.  The handlers' own answers carry the headers as well. *)
Theorem every_response_carries_cors request w :
  (exists resp w',
      fetch request w = (Normal resp, w')
      /\ carries_cors resp
      /\ (method request = "OPTIONS" ->
          status resp = 200 /\ body resp = None
          /\ headers resp = corsHeaders /\ w' = w))
  /\ (forall resp w',
        handleChatCompletions request corsHeaders w = (Normal resp, w') ->
        carries_cors resp)
  /\ (forall resp w',
        handleEmbeddings request corsHeaders w = (Normal resp, w') ->
        carries_cors resp)
  /\ carries_cors (handleModels corsHeaders).
Proof.
  assert (Hc : forall resp w',
             handleChatCompletions request corsHeaders w = (Normal resp, w') ->
             carries_cors resp)
    by (intros resp w' E; eapply cors_of_json_headers, chat_headers, E).
  assert (He : forall resp w',
             handleEmbeddings request corsHeaders w = (Normal resp, w') ->
             carries_cors resp)
    by (intros resp w' E; eapply cors_of_json_headers, embeddings_headers, E).
  split; [|split; [exact Hc|split; [exact He|repeat split]]].
  destruct (String.eqb_spec (method request) "OPTIONS") as [Hm|Hm].
  - unfold fetch. rewrite Hm. cbn [String.eqb Ascii.eqb Bool.eqb].
    eexists; eexists; split; [reflexivity|]. repeat split.
  - pose proof (fetch_chat request w Hm) as Fc.
    pose proof (fetch_embeddings request w Hm) as Fe.
    unfold fetch in *. apply String.eqb_neq in Hm as Hm'. rewrite Hm' in *.
    unfold try_catch in *.
    destruct (pathname request =? "/")%string eqn:P0;
      [eexists; eexists; split; [reflexivity|];
       split; [repeat split|intros; contradiction]|].
    destruct (pathname request =? "/v1/models")%string eqn:P1;
      [eexists; eexists; split; [reflexivity|];
       split; [repeat split|intros; contradiction]|].
    destruct (pathname request =? "/v1/chat/completions")%string eqn:P2.
    { destruct (handleChatCompletions request corsHeaders w)
        as [[resp|e] w1] eqn:E;
        eexists; eexists; (split; [reflexivity|]);
        (split; [|intros; contradiction]);
        [eapply Hc; reflexivity|repeat split]. }
    destruct (pathname request =? "/v1/embeddings")%string eqn:P3.
    { destruct (handleEmbeddings request corsHeaders w)
        as [[resp|e] w1] eqn:E;
        eexists; eexists; (split; [reflexivity|]);
        (split; [|intros; contradiction]);
        [eapply He; reflexivity|repeat split]. }
    eexists; eexists; split; [reflexivity|].
    split; [repeat split|intros; contradiction].
Qed.

(** ** The model catalog *)

(** C6: on the models path the dispatcher answers, for every request (any
    method but the pre-flight one, any body) and from every world, with one
    and the same response, and leaves the world as it found it; that
    response has status 200 and the list envelope around five descriptors.
    [handleModels] takes the headers only and cannot fault. *)
Theorem models_catalog_is_fixed request w :
  method request <> "OPTIONS" ->
  pathname request = "/v1/models" ->
  fetch request w = (Normal (handleModels corsHeaders), w)
  /\ status (handleModels corsHeaders) = 200
  /\ exists data,
      json_of (handleModels corsHeaders)
      = JObj [("object", JStr "list"); ("data", JArr data)]
      /\ List.length data = 5%nat
      /\ map (fun d => prop d "id") data
         = [JStr "@cf/meta/llama-3.3-70b-instruct-fp8-fast";
            JStr "@cf/meta/llama-3.1-70b-instruct";
            JStr "@cf/meta/llama-3-8b-instruct";
            JStr "@cf/baai/bge-large-en-v1.5";
            JStr "@cf/baai/bge-base-en-v1.5"].
Proof.
  intros Hm Hp. split; [|split; [reflexivity|]].
  - unfold fetch. apply String.eqb_neq in Hm. rewrite Hm, Hp. reflexivity.
  - eexists. split; [reflexivity|]. split; reflexivity.
Qed.

(** ** Validation *)

(** The values that [!v] lets through are [undefined], [null], [false], [0]
    and the empty string; an array, even an empty one, is not among them. *)
Lemma falsy_values v :
  truthy v = false <->
  v = JUndefined \/ v = JNull \/ v = JBool false \/ v = JNum 0 \/ v = JStr "".
Proof.
  split.
  - destruct v as [| |b|n|s|l|o]; simpl; intros E; try discriminate; auto.
    + destruct b; [discriminate|auto].
    + apply negb_false_iff, Z.eqb_eq in E. subst. auto 6.
    + apply negb_false_iff, String.eqb_eq in E. subst. auto 6.
  - intros [->|[->|[->|[->| ->]]]]; reflexivity.
Qed.

Lemma embeddings_validation request h w b :
  method request = "POST" ->
  json request = Normal b ->
  nullish b = false ->
  truthy (prop b "input") = false ->
  handleEmbeddings request h w
  = (Normal (error_response 400 [("error", JStr "Input is required")] h), w).
Proof.
  intros Hm Hj Hb Hi. unfold handleEmbeddings. rewrite (post_guard _ Hm).
  unfold bind at 1, request_json. rewrite Hj.
  unfold bind. rewrite (get_prop_ok _ _ _ Hb), Hi. reflexivity.
Qed.

Lemma chat_validation request h w b :
  method request = "POST" ->
  json request = Normal b ->
  nullish b = false ->
  isArray (prop b "messages") = false ->
  handleChatCompletions request h w
  = (Normal (error_response 400 [("error", JStr "Messages array is required")] h),
     w).
Proof.
  intros Hm Hj Hb Hi. unfold handleChatCompletions. rewrite (post_guard _ Hm).
  unfold bind at 1, request_json. rewrite Hj.
  unfold bind. rewrite (get_prop_ok _ _ _ Hb), Hi.
  rewrite orb_true_r. reflexivity.
Qed.

(** C3, amended: on a POST whose body parsed to a value other than [null]
    and whose [input] is absent, [null], [false], [0] or the empty string
    (that is, fails the test [!input]), the embeddings handler answers with
    status 400 and the backend is not called. *)
Theorem falsy_input_is_bad_request request h w b :
  method request = "POST" ->
  json request = Normal b ->
  nullish b = false ->
  truthy (prop b "input") = false ->
  exists resp w',
    handleEmbeddings request h w = (Normal resp, w')
    /\ status resp = 400
    /\ json_of resp = JObj [("error", JStr "Input is required")]
    /\ ai_calls w' = ai_calls w.
Proof.
  intros Hm Hj Hb Hi. eexists; exists w.
  split; [exact (embeddings_validation _ h w _ Hm Hj Hb Hi)|].
  repeat split.
Qed.

(** C4, amended: on a POST whose body parsed to a value other than [null],
    the chat handler answers 400 when [messages] is missing or is not an
    array, the embeddings handler answers 400 when [input] is missing, and
    in both cases the backend is not called. *)
Theorem missing_field_is_bad_request request h w b :
  method request = "POST" ->
  json request = Normal b ->
  nullish b = false ->
  (isArray (prop b "messages") = false ->
   exists resp w',
     handleChatCompletions request h w = (Normal resp, w')
     /\ status resp = 400 /\ ai_calls w' = ai_calls w)
  /\ (prop b "input" = JUndefined ->
      exists resp w',
        handleEmbeddings request h w = (Normal resp, w')
        /\ status resp = 400 /\ ai_calls w' = ai_calls w).
Proof.
  intros Hm Hj Hb. split.
  - intros Hi. eexists; exists w.
    split; [exact (chat_validation _ h w _ Hm Hj Hb Hi)|]. repeat split.
  - intros Hi. eexists; exists w.
    split; [apply (embeddings_validation _ h w _ Hm Hj Hb);
            rewrite Hi; reflexivity|].
    repeat split.
Qed.

(** C10: on a POST whose [input] is the empty array the embeddings handler
    passes validation, calls the backend not at all (the world it leaves is
    the one it was entered with) and answers with status 200 and an empty
    [data] sequence. *)
Theorem empty_array_input_succeeds request h w b :
  method request = "POST" ->
  json request = Normal b ->
  prop b "input" = JArr [] ->
  exists resp w',
    handleEmbeddings request h w = (Normal resp, w')
    /\ status resp = 200
    /\ prop (json_of resp) "data" = JArr []
    /\ ai_calls w' = ai_calls w
    /\ w' = w.
Proof.
  intros Hm Hj Hi.
  assert (Hb : nullish b = false)
    by (apply (prop_nullish b "input"); rewrite Hi; discriminate).
  eexists; exists w. split.
  - unfold handleEmbeddings. rewrite (post_guard _ Hm).
    unfold bind at 1, request_json. rewrite Hj.
    unfold bind at 1. rewrite (get_prop_ok _ _ _ Hb), Hi. reflexivity.
  - repeat split.
Qed.

(** ** The embedding loop *)

Lemma run_AI_eq model params w :
  run_AI model params w
  = (fst (AI_run model params (host w)),
     called w model params (fst (AI_run model params (host w)))
       (snd (AI_run model params (host w)))).
Proof. unfold run_AI. destruct (AI_run model params (host w)); reflexivity. Qed.

(** One turn of the loop. *)
Lemma embed_loop_cons model x rest i acc w :
  embed_loop model (x :: rest) i acc w =
  let params := JObj [("text", x)] in
  match AI_run model params (host w) with
  | (Normal r, s) =>
      if nullish r
      then (Throw (ErrorObj "TypeError" (TypeError_message r "data")),
            called w model params (Normal r) s)
      else embed_loop model rest (S i)
             (acc ++ [embedding_entry (or_else (prop r "data") r) i])
             (called w model params (Normal r) s)
  | (Throw e, s) => (Throw e, called w model params (Throw e) s)
  end.
Proof.
  cbn [embed_loop]. unfold bind at 1. rewrite run_AI_eq.
  destruct (AI_run model (JObj [("text", x)]) (host w)) as [[r|e] s];
    cbn [fst snd]; [|reflexivity].
  unfold bind, get_prop. destruct (nullish r); reflexivity.
Qed.

Lemma embed_loop_outcome model rest :
  forall i acc w,
  exists calls,
    ai_calls (snd (embed_loop model rest i acc w)) = ai_calls w ++ calls
    /\ loop_outcome rest i acc (fst (embed_loop model rest i acc w)) calls.
Proof.
  induction rest as [|x rest IH]; intros i acc w.
  - exists []. cbn. split; [now rewrite app_nil_r|].
    split; [constructor|]. split; [reflexivity|].
    exists []. split; [now rewrite app_nil_r|]. split; [reflexivity|].
    intros k Hk. inversion Hk.
  - rewrite embed_loop_cons. cbv zeta.
    destruct (AI_run model (JObj [("text", x)]) (host w)) as [[r|e] s].
    + destruct (nullish r) eqn:Hr.
      * eexists [_]. cbn. split; [reflexivity|].
        exists [], {| call_model := model; call_params := JObj [("text", x)];
                      call_result := Normal r |}.
        split; [reflexivity|]. split; [constructor|]. split; [cbn; lia|].
        right. exists r. now split.
      * set (c := {| call_model := model; call_params := JObj [("text", x)];
                     call_result := Normal r |}).
        set (w1 := called w model (JObj [("text", x)]) (Normal r) s).
        set (acc1 := acc ++ [embedding_entry (or_else (prop r "data") r) i]).
        destruct (IH (S i) acc1 w1) as (calls & Hcalls & Hout).
        exists (c :: calls). split.
        { rewrite Hcalls. subst w1. cbn. now rewrite <- app_assoc. }
        assert (Hc : returned c) by (exists r; reflexivity).
        destruct (fst (embed_loop model rest (S i) acc1 w1)) as [out|e].
        -- destruct Hout as (Hret & Hlen & new & -> & Hnew & Hidx).
           split; [now constructor|]. split; [cbn; now rewrite Hlen|].
           exists (embedding_entry (or_else (prop r "data") r) i :: new).
           split; [subst acc1; now rewrite <- app_assoc|].
           split; [cbn; now rewrite Hnew|].
           intros [|k] Hk.
           ++ cbn. now rewrite Nat.add_0_r.
           ++ cbn [nth]. rewrite Hidx by (cbn in Hk; lia).
              f_equal. lia.
        -- destruct Hout as (pre & c' & -> & Hpre & Hlen & Hc').
           exists (c :: pre), c'. split; [reflexivity|].
           split; [now constructor|]. split; [cbn; lia|exact Hc'].
    + eexists [_]. cbn. split; [reflexivity|].
      exists [], {| call_model := model; call_params := JObj [("text", x)];
                    call_result := Throw e |}.
      split; [reflexivity|]. split; [constructor|]. split; [cbn; lia|].
      now left.
Qed.

(** ** Embeddings *)

Lemma truthy_prop_nullish b k : truthy (prop b k) = true -> nullish b = false.
Proof. intros Hi. apply (prop_nullish b k). intros E. now rewrite E in Hi. Qed.

(** Past validation the handler is its [try] block. *)
Lemma embeddings_run request h w b :
  method request = "POST" ->
  json request = Normal b ->
  truthy (prop b "input") = true ->
  let model := default_to default_embedding_model (prop b "model") in
  handleEmbeddings request h w =
  match embed_loop model (normalize_input (prop b "input")) 0 [] w with
  | (Normal data, w') =>
      (Normal (Response_new (Some (embedding_list data model)) None
                 (json_headers h)), w')
  | (Throw e, w') =>
      (Normal (error_response 500
                 [("error", JStr "Failed to generate embeddings");
                  ("message", error_message e)] h),
       {| host := host w'; ai_calls := ai_calls w';
          console := console w' ++ [("Embeddings error:", e)] |})
  end.
Proof.
  intros Hm Hj Hi model. unfold handleEmbeddings. rewrite (post_guard _ Hm).
  unfold bind at 1, request_json. rewrite Hj.
  unfold bind at 1. rewrite (get_prop_ok _ _ _ (truthy_prop_nullish _ _ Hi)), Hi.
  cbn [negb]. unfold try_catch, bind. fold model.
  destruct (embed_loop model (normalize_input (prop b "input")) 0 [] w)
    as [[data|e] w']; reflexivity.
Qed.

(** C2: on a POST whose [input] passes validation, a success response of
    the embeddings handler has a [data] sequence as long as the normalized
    input (so of length 1 when [input] is not an array), and the entry at
    position [i] has [index] equal to [i]. *)
Theorem embeddings_data_follows_input request h w b resp w' :
  method request = "POST" ->
  json request = Normal b ->
  truthy (prop b "input") = true ->
  handleEmbeddings request h w = (Normal resp, w') ->
  status resp = 200 ->
  exists data,
    prop (json_of resp) "data" = JArr data
    /\ List.length data = List.length (normalize_input (prop b "input"))
    /\ (isArray (prop b "input") = false -> List.length data = 1%nat)
    /\ forall i, (i < List.length data)%nat ->
         prop (nth i data JUndefined) "index" = JNum (Z.of_nat i).
Proof.
  intros Hm Hj Hi Hrun Hst.
  rewrite (embeddings_run _ h w _ Hm Hj Hi) in Hrun. cbv zeta in Hrun.
  set (model := default_to default_embedding_model (prop b "model")) in *.
  set (inputs := normalize_input (prop b "input")) in *.
  destruct (embed_loop_outcome model inputs 0 [] w) as (calls & _ & Hout).
  destruct (embed_loop model inputs 0 [] w) as [[data|e] w1];
    inversion Hrun; subst resp w'; [|discriminate Hst].
  cbn [fst] in Hout. destruct Hout as (_ & _ & new & Hdata & Hlen & Hidx).
  cbn [app] in Hdata. subst new.
  exists data. split; [reflexivity|]. split; [exact Hlen|]. split.
  - intros Harr. rewrite Hlen. subst inputs.
    destruct (prop b "input"); try reflexivity. discriminate Harr.
  - intros i Hlt. rewrite Hlen in Hlt. exact (Hidx i Hlt).
Qed.

(** The success case is there: when every backend call returns a value
    other than [null] and [undefined], the answer has status 200. *)
Lemma embed_loop_total model rest :
  (forall m p s, exists r s',
      AI_run m p s = (Normal r, s') /\ nullish r = false) ->
  forall i acc w, exists data, fst (embed_loop model rest i acc w) = Normal data.
Proof.
  intros Hai. induction rest as [|x rest IH]; intros i acc w.
  - exists acc. reflexivity.
  - rewrite embed_loop_cons. cbv zeta.
    destruct (Hai model (JObj [("text", x)]) (host w)) as (r & s' & -> & ->).
    apply IH.
Qed.

Lemma embeddings_succeed_when_backend_does request h w b :
  (forall m p s, exists r s',
      AI_run m p s = (Normal r, s') /\ nullish r = false) ->
  method request = "POST" ->
  json request = Normal b ->
  truthy (prop b "input") = true ->
  exists resp w',
    handleEmbeddings request h w = (Normal resp, w') /\ status resp = 200.
Proof.
  intros Hai Hm Hj Hi.
  rewrite (embeddings_run _ h w _ Hm Hj Hi). cbv zeta.
  destruct (embed_loop_total
              (default_to default_embedding_model (prop b "model"))
              (normalize_input (prop b "input")) Hai 0%nat [] w) as (data & E).
  destruct (embed_loop _ _ 0 [] w) as [[d|e] w1]; [|discriminate E].
  eexists; eexists; split; reflexivity.
Qed.

Lemma returned_not_rejected c : returned c -> rejected c -> False.
Proof. intros (v & E) (e & E'). congruence. Qed.

(** C5: when, in the course of an embeddings request past validation, some
    backend call is rejected, the handler answers with status 500 and the
    envelope [{error: "Failed to generate embeddings", message}], which has
    no [data] field; the rejected call is the last one made (every call
    before it returned, none follows it), and [message] is taken from its
    fault. *)
Theorem rejected_call_aborts_batch request h w b calls :
  method request = "POST" ->
  json request = Normal b ->
  truthy (prop b "input") = true ->
  ai_calls (snd (handleEmbeddings request h w)) = ai_calls w ++ calls ->
  Exists rejected calls ->
  exists resp e,
    fst (handleEmbeddings request h w) = Normal resp
    /\ status resp = 500
    /\ json_of resp = JObj [("error", JStr "Failed to generate embeddings");
                            ("message", error_message e)]
    /\ prop (json_of resp) "data" = JUndefined
    /\ exists pre c,
        calls = pre ++ [c] /\ Forall returned pre /\ call_result c = Throw e.
Proof.
  intros Hm Hj Hi Hcalls Hrej.
  rewrite (embeddings_run _ h w _ Hm Hj Hi) in *. cbv zeta in *.
  set (model := default_to default_embedding_model (prop b "model")) in *.
  set (inputs := normalize_input (prop b "input")) in *.
  destruct (embed_loop_outcome model inputs 0 [] w) as (calls' & Hlog & Hout).
  destruct (embed_loop model inputs 0 [] w) as [[data|e] w1];
    cbn [fst snd ai_calls] in *;
    rewrite Hlog in Hcalls; apply app_inv_head in Hcalls; subst calls'.
  - exfalso. destruct Hout as (Hret & _).
    apply Exists_exists in Hrej. destruct Hrej as (c & Hin & Hc).
    rewrite Forall_forall in Hret.
    exact (returned_not_rejected c (Hret c Hin) Hc).
  - destruct Hout as (pre & c & -> & Hpre & _ & Hc).
    eexists; exists e. split; [reflexivity|]. repeat split.
    exists pre, c. split; [reflexivity|]. split; [exact Hpre|].
    destruct Hc as [Hc|(v & Hv & _)]; [exact Hc|].
    exfalso. apply Exists_app in Hrej. destruct Hrej as [Hrej|Hrej].
    + apply Exists_exists in Hrej. destruct Hrej as (c' & Hin & Hc').
      rewrite Forall_forall in Hpre.
      exact (returned_not_rejected c' (Hpre c' Hin) Hc').
    + inversion Hrej as [? ? Hc'|? ? Hc']; subst.
      * exact (returned_not_rejected c (ex_intro _ v Hv) Hc').
      * inversion Hc'.
Qed.

(** ** Chat completions *)

(** Past validation the chat handler is its [try] block: one backend call,
    two readings of the clock, and the read of [response] on what came
    back. *)
Lemma chat_run request h w b ms :
  method request = "POST" ->
  json request = Normal b ->
  prop b "messages" = JArr ms ->
  let model := default_to default_chat_model (prop b "model") in
  let params :=
    chat_params (JArr ms) (default_to (JBool false) (prop b "stream"))
      (rest_props ["messages"; "model"; "stream"] b) in
  handleChatCompletions request h w =
  match AI_run model params (host w) with
  | (Normal r, s) =>
      let w1 := called w model params (Normal r) s in
      let w2 := {| host := snd (Date_now (snd (Date_now s)));
                   ai_calls := ai_calls w1; console := console w1 |} in
      if nullish r then
        let e := ErrorObj "TypeError" (TypeError_message r "response") in
        (Normal (error_response 500
                   [("error", JStr "Failed to generate completion");
                    ("message", error_message e)] h),
         {| host := host w2; ai_calls := ai_calls w2;
            console := console w2 ++ [("Chat completion error:", e)] |})
      else
        (Normal (Response_new
                   (Some (chat_completion
                            ("chatcmpl-" ++ string_of_Z (fst (Date_now s)))%string
                            (fst (Date_now (snd (Date_now s))) / 1000)
                            model (or_else (prop r "response") r)))
                   None (json_headers h)), w2)
  | (Throw e, s) =>
      let w1 := called w model params (Throw e) s in
      (Normal (error_response 500
                 [("error", JStr "Failed to generate completion");
                  ("message", error_message e)] h),
       {| host := host w1; ai_calls := ai_calls w1;
          console := console w1 ++ [("Chat completion error:", e)] |})
  end.
Proof.
  intros Hm Hj Hms model params.
  assert (Hb : nullish b = false)
    by (apply (prop_nullish b "messages"); rewrite Hms; discriminate).
  unfold handleChatCompletions. rewrite (post_guard _ Hm).
  unfold bind at 1, request_json. rewrite Hj.
  unfold bind at 1. rewrite (get_prop_ok _ _ _ Hb), Hms.
  cbn [truthy isArray negb orb]. fold model. fold params.
  unfold try_catch. unfold bind at 1. rewrite run_AI_eq.
  destruct (AI_run model params (host w)) as [[r|e] s]; cbn [fst snd];
    [|reflexivity].
  unfold bind, now, get_prop, called, throw, ret, console_error.
  cbn [host ai_calls console].
  destruct (Date_now s) as [t1 s1]. cbn [fst snd host ai_calls console].
  destruct (Date_now s1) as [t2 s2]. cbn [fst snd host ai_calls console].
  destruct (nullish r); reflexivity.
Qed.

(** What the chat handler computes past validation, as the code stands: it
    answers with status 200 exactly when the backend call returns a value
    other than [null] and [undefined], and the reply text
    [choices[0].message.content] is then [response.response || response]:
    the [response] field when it is truthy and the raw value otherwise (so
    also when the field is there and falsy); [finish_reason] is ["stop"] and
    the three usage counts are 0. *)
Theorem chat_reply_is_truthy_response_or_raw request h w b ms :
  method request = "POST" ->
  json request = Normal b ->
  prop b "messages" = JArr ms ->
  let model := default_to default_chat_model (prop b "model") in
  let params :=
    chat_params (JArr ms) (default_to (JBool false) (prop b "stream"))
      (rest_props ["messages"; "model"; "stream"] b) in
  let reply r :=
    if truthy (prop r "response") then prop r "response" else r in
  let shaped resp r :=
    content_of resp = reply r
    /\ finish_reason_of resp = JStr "stop"
    /\ usage_of resp "prompt_tokens" = JNum 0
    /\ usage_of resp "completion_tokens" = JNum 0
    /\ usage_of resp "total_tokens" = JNum 0 in
  (forall r s,
      AI_run model params (host w) = (Normal r, s) ->
      nullish r = false ->
      exists resp w',
        handleChatCompletions request h w = (Normal resp, w')
        /\ status resp = 200 /\ shaped resp r)
  /\ (forall resp w',
        handleChatCompletions request h w = (Normal resp, w') ->
        status resp = 200 ->
        exists r s,
          AI_run model params (host w) = (Normal r, s)
          /\ nullish r = false /\ shaped resp r).
Proof.
  intros Hm Hj Hms model params reply shaped.
  pose proof (chat_run _ h w _ _ Hm Hj Hms) as Hrun. cbv zeta in Hrun.
  fold model params in Hrun. split.
  - intros r s Hai Hr. rewrite Hai, Hr in Hrun.
    eexists; eexists. split; [exact Hrun|]. repeat split.
  - intros resp w' Hresp Hst. rewrite Hresp in Hrun.
    destruct (AI_run model params (host w)) as [[r|e] s].
    + destruct (nullish r) eqn:Hr; inversion Hrun; subst resp;
        [discriminate Hst|].
      exists r, s. split; [reflexivity|]. split; [exact Hr|]. repeat split.
    + inversion Hrun; subst resp. discriminate Hst.
Qed.

End Properties.

(** * The properties on sample requests *)

(** ** Chat completions *)

Lemma chat_reply_witness :
  exists resp w',
    handleChatCompletions chat_request corsHeaders
      (world0 [Normal (JObj [("response", JStr "Hi there")])])
    = (Normal resp, w')
    /\ status resp = 200
    /\ content_of resp = JStr "Hi there"
    /\ finish_reason_of resp = JStr "stop"
    /\ usage_of resp "total_tokens" = JNum 0.
Proof.
  destruct (chat_reply_is_truthy_response_or_raw (H := scripted_host)
              chat_request corsHeaders
              (world0 [Normal (JObj [("response", JStr "Hi there")])])
              _ _ eq_refl eq_refl eq_refl) as [Hfwd _].
  destruct (Hfwd _ _ eq_refl eq_refl)
    as (resp & w' & E & Hst & Hc & Hf & _ & _ & Hu).
  exists resp, w'. repeat split; assumption.
Defined.

(** C1, on the failing input: the backend result [{response: ""}] is an
    object that exposes a [response] field, the handler succeeds, and the
    reply text it sends is the whole result object, not the field (the
    empty string) that C1 asks for: [response.response || response]
    discards a field that is there but falsy. *)
Lemma falsy_response_field_counterexample :
  exists resp w',
    handleChatCompletions chat_request corsHeaders
      (world0 [Normal (JObj [("response", JStr "")])])
    = (Normal resp, w')
    /\ status resp = 200
    /\ lookup "response" [("response", JStr "")] = Some (JStr "")
    /\ content_of resp = JObj [("response", JStr "")]
    /\ content_of resp <> JStr "".
Proof.
  eexists; eexists. split; [vm_compute; reflexivity|].
  repeat split. discriminate.
Qed.

(** ** Embeddings *)

Lemma embeddings_data_witness :
  exists resp w' data,
    handleEmbeddings batch_request corsHeaders
      (world0 [Normal (vector 1 2); Normal (JArr [JNum 3]); Normal (vector 5 6)])
    = (Normal resp, w')
    /\ status resp = 200
    /\ prop (json_of resp) "data" = JArr data
    /\ List.length data = 3%nat
    /\ prop (nth 2 data JUndefined) "index" = JNum 2.
Proof.
  eexists; eexists.
  destruct (embeddings_data_follows_input (H := scripted_host)
              batch_request corsHeaders
              (world0 [Normal (vector 1 2); Normal (JArr [JNum 3]);
                       Normal (vector 5 6)])
              _ _ _ eq_refl eq_refl eq_refl eq_refl eq_refl)
    as (data & Hd & Hlen & _ & Hidx).
  exists data. split; [vm_compute; reflexivity|]. split; [reflexivity|].
  split; [exact Hd|]. split; [exact Hlen|].
  apply (Hidx 2%nat). rewrite Hlen. cbn. lia.
Defined.

(** A scalar [input] is embedded as a batch of one. *)
Example scalar_input_gives_one_entry :
  fst (handleEmbeddings scalar_request corsHeaders
         (world0 [Normal (vector 1 2)]))
  = Normal (Response_new
              (Some (embedding_list
                       [embedding_entry (JArr [JArr [JNum 1; JNum 2]]) 0]
                       default_embedding_model))
              None (json_headers corsHeaders)).
Proof. reflexivity. Qed.

Lemma rejected_call_witness :
  exists resp,
    fst (handleEmbeddings batch_request corsHeaders
           (world0 [Normal (vector 1 2);
                    Throw (ErrorObj "Error" (JStr "model overloaded"));
                    Normal (vector 5 6)]))
    = Normal resp
    /\ status resp = 500
    /\ prop (json_of resp) "error" = JStr "Failed to generate embeddings"
    /\ prop (json_of resp) "message" = JStr "model overloaded"
    /\ prop (json_of resp) "data" = JUndefined.
Proof.
  assert (Hrej : Exists rejected
            [ {| call_model := default_embedding_model;
                 call_params := JObj [("text", JStr "a")];
                 call_result := Normal (vector 1 2) |};
              {| call_model := default_embedding_model;
                 call_params := JObj [("text", JStr "b")];
                 call_result :=
                   Throw (ErrorObj "Error" (JStr "model overloaded")) |} ]).
  { apply Exists_cons_tl, Exists_cons_hd. eexists. reflexivity. }
  destruct (rejected_call_aborts_batch (H := scripted_host)
              batch_request corsHeaders
              (world0 [Normal (vector 1 2);
                       Throw (ErrorObj "Error" (JStr "model overloaded"));
                       Normal (vector 5 6)])
              _ _ eq_refl eq_refl eq_refl eq_refl Hrej)
    as (resp & e & E & Hst & Hj & Hd & _).
  exists resp. split; [exact E|]. split; [exact Hst|].
  vm_compute in E. injection E as <-. repeat split.
Defined.

(** C3 as stated fails on the empty sequence: the handler answers 200,
    not 400. *)
Lemma empty_sequence_counterexample :
  prop (JObj [("input", JArr [])]) "input" = JArr []
  /\ exists resp w',
      handleEmbeddings empty_batch_request corsHeaders (world0 [])
      = (Normal resp, w')
      /\ status resp = 200
      /\ status resp <> 400.
Proof.
  split; [reflexivity|]. eexists; eexists.
  split; [vm_compute; reflexivity|].
  split; [reflexivity|discriminate].
Qed.

Lemma falsy_input_witness :
  exists resp w',
    handleEmbeddings no_input_request corsHeaders
      (world0 [Normal (vector 1 2)])
    = (Normal resp, w')
    /\ status resp = 400
    /\ json_of resp = JObj [("error", JStr "Input is required")]
    /\ ai_calls w' = [].
Proof.
  exact (falsy_input_is_bad_request (H := scripted_host)
           no_input_request corsHeaders (world0 [Normal (vector 1 2)])
           _ eq_refl eq_refl eq_refl eq_refl).
Defined.

Lemma empty_array_input_witness :
  exists resp w',
    handleEmbeddings empty_batch_request corsHeaders
      (world0 [Normal (vector 1 2)])
    = (Normal resp, w')
    /\ status resp = 200
    /\ prop (json_of resp) "data" = JArr []
    /\ ai_calls w' = []
    /\ w' = world0 [Normal (vector 1 2)].
Proof.
  exact (empty_array_input_succeeds (H := scripted_host)
           empty_batch_request corsHeaders (world0 [Normal (vector 1 2)])
           _ eq_refl eq_refl eq_refl).
Defined.

(** ** Missing fields *)

Lemma missing_field_witness :
  (exists resp w',
      handleChatCompletions no_messages_request corsHeaders (world0 [])
      = (Normal resp, w')
      /\ status resp = 400 /\ ai_calls w' = [])
  /\ (exists resp w',
      handleEmbeddings no_messages_request corsHeaders (world0 [])
      = (Normal resp, w')
      /\ status resp = 400 /\ ai_calls w' = []).
Proof.
  destruct (missing_field_is_bad_request (H := scripted_host)
              no_messages_request corsHeaders (world0 [])
              _ eq_refl eq_refl eq_refl) as [Hchat Hemb].
  split; [exact (Hchat eq_refl)|exact (Hemb eq_refl)].
Defined.

(** C4 as stated fails on the body [null], which has no [messages] and no
    [input]: destructuring it faults, the fault leaves the handler, and the
    dispatcher answers 500, not 400. *)
Lemma null_body_counterexample :
  prop JNull "messages" = JUndefined
  /\ prop JNull "input" = JUndefined
  /\ (exists e,
        handleChatCompletions (null_body_request "/v1/chat/completions")
          corsHeaders (world0 [])
        = (Throw e, world0 []))
  /\ (exists resp w',
        fetch (null_body_request "/v1/chat/completions") (world0 [])
        = (Normal resp, w')
        /\ status resp = 500 /\ status resp <> 400)
  /\ (exists resp w',
        fetch (null_body_request "/v1/embeddings") (world0 [])
        = (Normal resp, w')
        /\ status resp = 500 /\ status resp <> 400).
Proof.
  split; [reflexivity|]. split; [reflexivity|].
  split; [eexists; vm_compute; reflexivity|].
  split; eexists; eexists; (split; [vm_compute; reflexivity|]);
    (split; [reflexivity|discriminate]).
Qed.

(** ** Methods, faults of the parser, catalog and headers *)

Lemma non_post_witness :
  (exists resp w',
      handleChatCompletions (get_request "/v1/chat/completions") corsHeaders
        (world0 [])
      = (Normal resp, w')
      /\ status resp = 405 /\ ai_calls w' = [])
  /\ (exists resp w',
      handleEmbeddings (get_request "/v1/chat/completions") corsHeaders
        (world0 [])
      = (Normal resp, w')
      /\ status resp = 405 /\ ai_calls w' = []).
Proof.
  apply (non_post_is_method_not_allowed (H := scripted_host)
           (get_request "/v1/chat/completions") corsHeaders (world0 [])).
  vm_compute. discriminate.
Defined.

Lemma unparseable_body_witness :
  exists resp w',
    fetch (garbled_request "/v1/embeddings") (world0 [Normal (vector 1 2)])
    = (Normal resp, w')
    /\ status resp = 500
    /\ status resp <> 400
    /\ json_of resp = JObj [("error", JStr "Internal server error");
                            ("message", JStr "Unexpected token")]
    /\ ai_calls w' = [].
Proof.
  exact (proj2 (proj2
    (unparseable_body_is_internal_error (H := scripted_host)
       (garbled_request "/v1/embeddings") (world0 [Normal (vector 1 2)])
       _ eq_refl eq_refl (or_intror eq_refl)))).
Defined.

Lemma models_catalog_witness :
  fetch (get_request "/v1/models") (world0 [Normal (vector 1 2)])
  = (Normal (handleModels corsHeaders), world0 [Normal (vector 1 2)])
  /\ fetch (post "/v1/models" JNull) (world0 [])
     = (Normal (handleModels corsHeaders), world0 []).
Proof.
  split.
  - apply (models_catalog_is_fixed (H := scripted_host)
             (get_request "/v1/models") (world0 [Normal (vector 1 2)]));
      [vm_compute; discriminate|reflexivity].
  - apply (models_catalog_is_fixed (H := scripted_host)
             (post "/v1/models" JNull) (world0 []));
      [vm_compute; discriminate|reflexivity].
Defined.

Lemma preflight_witness :
  exists resp w',
    fetch (options_request "/no/such/path") (world0 []) = (Normal resp, w')
    /\ carries_cors resp
    /\ status resp = 200
    /\ body resp = None
    /\ headers resp = corsHeaders.
Proof.
  destruct (every_response_carries_cors (H := scripted_host)
              (options_request "/no/such/path") (world0 []))
    as [(resp & w' & E & Hc & Ho) _].
  destruct (Ho eq_refl) as (Hst & Hb & Hh & _).
  exists resp, w'. repeat split; try assumption; apply Hc.
Defined.

(** * Further properties of the dispatcher and the handlers *)

Section Routes.

Context `{Host}.

Implicit Types (request : Request) (w : World) (h : object string).

Lemma fetch_preflight request w :
  method request = "OPTIONS" ->
  fetch request w = (Normal (Response_new None None corsHeaders), w).
Proof. intros Hm. unfold fetch. rewrite Hm. reflexivity. Qed.

Lemma fetch_root request w :
  method request <> "OPTIONS" ->
  pathname request = "/" ->
  fetch request w
  = (Normal (Response_new (Some info_document) None
               (json_headers corsHeaders)), w).
Proof.
  intros Hm Hp. unfold fetch. apply String.eqb_neq in Hm.
  rewrite Hm, Hp. reflexivity.
Qed.

Lemma fetch_models request w :
  method request <> "OPTIONS" ->
  pathname request = "/v1/models" ->
  fetch request w = (Normal (handleModels corsHeaders), w).
Proof.
  intros Hm Hp. unfold fetch. apply String.eqb_neq in Hm.
  rewrite Hm, Hp. reflexivity.
Qed.

Lemma fetch_unrouted request w :
  method request <> "OPTIONS" ->
  ~ routed (pathname request) ->
  fetch request w
  = (Normal (error_response 404 [("error", JStr "Not found")] corsHeaders), w).
Proof.
  intros Hm Hp. unfold fetch. apply String.eqb_neq in Hm. rewrite Hm.
  unfold routed in Hp.
  destruct (String.eqb_spec (pathname request) "/"); [tauto|].
  destruct (String.eqb_spec (pathname request) "/v1/models"); [tauto|].
  destruct (String.eqb_spec (pathname request) "/v1/chat/completions");
    [tauto|].
  destruct (String.eqb_spec (pathname request) "/v1/embeddings"); [tauto|].
  reflexivity.
Qed.

(** Every path is one of the four routed ones or none of them. *)
Lemma routed_dec path : routed path \/ ~ routed path.
Proof.
  unfold routed.
  destruct (String.eqb_spec path "/"); [tauto|].
  destruct (String.eqb_spec path "/v1/models"); [tauto|].
  destruct (String.eqb_spec path "/v1/chat/completions"); [tauto|].
  destruct (String.eqb_spec path "/v1/embeddings"); tauto.
Qed.

(** X1: a request to the root path, whatever its method (the pre-flight one
    apart) and whatever its body, is answered with status 200 and the
    information document naming the three endpoints; nothing is parsed,
    called or logged. *)
Theorem root_serves_info_document request w :
  method request <> "OPTIONS" ->
  pathname request = "/" ->
  exists resp,
    fetch request w = (Normal resp, w)
    /\ status resp = 200
    /\ prop (json_of resp) "endpoints"
       = JObj [("chat", JStr "/v1/chat/completions");
               ("embeddings", JStr "/v1/embeddings");
               ("models", JStr "/v1/models")]
    /\ prop (json_of resp) "message" = JStr "OpenAI-compatible Workers AI API".
Proof.
  intros Hm Hp. eexists. split; [apply (fetch_root _ _ Hm Hp)|].
  repeat split.
Qed.

(** X2: a request to a path that is none of the four routed ones (the match
    is exact: a trailing slash or another case is another path) is answered
    with status 404 and [{error: "Not found"}], whatever its method (the
    pre-flight one apart) and body; nothing is parsed, called or logged. *)
Theorem unrouted_path_is_not_found request w :
  method request <> "OPTIONS" ->
  ~ routed (pathname request) ->
  exists resp,
    fetch request w = (Normal resp, w)
    /\ status resp = 404
    /\ json_of resp = JObj [("error", JStr "Not found")].
Proof.
  intros Hm Hp. eexists. split; [apply (fetch_unrouted _ _ Hm Hp)|].
  repeat split.
Qed.

(** ** What the handlers leave behind *)

(** The loop writes nothing to the console. *)
Lemma embed_loop_console model rest :
  forall i acc w, console (snd (embed_loop model rest i acc w)) = console w.
Proof.
  induction rest as [|x rest IH]; intros i acc w; [reflexivity|].
  rewrite embed_loop_cons. cbv zeta.
  destruct (AI_run model (JObj [("text", x)]) (host w)) as [[r|e] s];
    [|reflexivity].
  destruct (nullish r); [reflexivity|]. now rewrite IH.
Qed.

(** The calls of the loop, in full: they go to [model], carry the elements
    in order from the first on, and stop at the first one that is rejected
    or that returns [null] or [undefined]; when the loop runs to the end,
    entry [k] is built from the result of call [k]. *)
Lemma embed_loop_trace model rest :
  forall i acc w,
  exists calls,
    ai_calls (snd (embed_loop model rest i acc w)) = ai_calls w ++ calls
    /\ Forall (fun c => call_model c = model) calls
    /\ map call_params calls
       = map text_param (firstn (List.length calls) rest)
    /\ (List.length calls <= List.length rest)%nat
    /\ match fst (embed_loop model rest i acc w) with
       | Normal out =>
           List.length calls = List.length rest
           /\ Forall answered calls
           /\ exists new,
               out = acc ++ new
               /\ forall k c, nth_error calls k = Some c ->
                    exists r,
                      call_result c = Normal r
                      /\ nth_error new k
                         = Some (embedding_entry (normalized "data" r)
                                   (i + k))
       | Throw e =>
           exists pre c,
             calls = pre ++ [c]
             /\ Forall answered pre
             /\ (call_result c = Throw e
                 \/ exists v,
                     call_result c = Normal v /\ nullish v = true
                     /\ e = ErrorObj "TypeError" (TypeError_message v "data"))
       end.
Proof.
  induction rest as [|x rest IH]; intros i acc w.
  - exists []. cbn. split; [now rewrite app_nil_r|].
    split; [constructor|]. split; [reflexivity|]. split; [lia|].
    split; [reflexivity|]. split; [constructor|].
    exists []. split; [now rewrite app_nil_r|].
    intros [|k] c Hk; discriminate Hk.
  - rewrite embed_loop_cons. cbv zeta.
    destruct (AI_run model (JObj [("text", x)]) (host w)) as [[r|e] s].
    + destruct (nullish r) eqn:Hr.
      * eexists [_]. cbn. split; [reflexivity|].
        split; [repeat constructor|]. split; [reflexivity|]. split; [lia|].
        exists [], {| call_model := model; call_params := JObj [("text", x)];
                      call_result := Normal r |}.
        split; [reflexivity|]. split; [constructor|].
        right. exists r. repeat split. exact Hr.
      * set (c := {| call_model := model; call_params := JObj [("text", x)];
                     call_result := Normal r |}).
        set (w1 := called w model (JObj [("text", x)]) (Normal r) s).
        set (acc1 := acc ++ [embedding_entry (or_else (prop r "data") r) i]).
        destruct (IH (S i) acc1 w1)
          as (calls & Hlog & Hmodel & Hparams & Hlen & Hout).
        assert (Hc : answered c) by (exists r; now split).
        exists (c :: calls). split.
        { rewrite Hlog. subst w1. cbn. now rewrite <- app_assoc. }
        split; [now constructor|].
        split; [cbn; now rewrite Hparams|]. split; [cbn; lia|].
        destruct (fst (embed_loop model rest (S i) acc1 w1)) as [out|e].
        -- destruct Hout as (Hfull & Hans & new & -> & Hnew).
           split; [cbn; now rewrite Hfull|]. split; [now constructor|].
           exists (embedding_entry (or_else (prop r "data") r) i :: new).
           split; [subst acc1; now rewrite <- app_assoc|].
           intros [|k] c' Hk.
           ++ cbn in Hk. injection Hk as <-. exists r.
              split; [reflexivity|]. cbn. now rewrite Nat.add_0_r.
           ++ cbn in Hk. destruct (Hnew k c' Hk) as (r' & Hr' & Hk').
              exists r'. split; [exact Hr'|]. cbn [nth_error].
              rewrite Hk'. do 2 f_equal. lia.
        -- destruct Hout as (pre & c' & -> & Hpre & Hc').
           exists (c :: pre), c'. split; [reflexivity|].
           split; [now constructor|exact Hc'].
    + eexists [_]. cbn. split; [reflexivity|].
      split; [repeat constructor|]. split; [reflexivity|]. split; [lia|].
      exists [], {| call_model := model; call_params := JObj [("text", x)];
                    call_result := Throw e |}.
      split; [reflexivity|]. split; [constructor|]. now left.
Qed.

(** A handler's answer is a 200, a 400 or a 405 with nothing logged, or a
    500 logged once under the handler's label; a fault that leaves the
    handler leaves the world as it was. *)
Lemma chat_outcome request h w :
  match handleChatCompletions request h w with
  | (Normal resp, w') =>
      (status resp = 200 \/ status resp = 400 \/ status resp = 405)
      /\ console w' = console w
      \/ status resp = 500
         /\ exists e, console w' = console w ++ [("Chat completion error:", e)]
  | (Throw e, w') => w' = w
  end.
Proof.
  unfold handleChatCompletions. unfold_monad.
  crunch; cbn;
    first [reflexivity
          | left; split; [tauto|reflexivity]
          | right; split; [reflexivity|eexists; reflexivity]].
Qed.

Lemma embeddings_outcome request h w :
  match handleEmbeddings request h w with
  | (Normal resp, w') =>
      (status resp = 200 \/ status resp = 400 \/ status resp = 405)
      /\ console w' = console w
      \/ status resp = 500
         /\ exists e, console w' = console w ++ [("Embeddings error:", e)]
  | (Throw e, w') => w' = w
  end.
Proof.
  unfold handleEmbeddings.
  destruct (negb (method request =? "POST")%string);
    [left; split; [cbn; tauto|reflexivity]|].
  unfold bind at 1, request_json.
  destruct (json request) as [b|e]; [|reflexivity].
  unfold bind at 1, get_prop.
  destruct (nullish b); [reflexivity|]. unfold ret at 1.
  destruct (negb (truthy (prop b "input")));
    [left; split; [cbn; tauto|reflexivity]|].
  unfold try_catch, bind.
  pose proof (embed_loop_console
                (default_to default_embedding_model (prop b "model"))
                (normalize_input (prop b "input")) 0%nat [] w) as Hc.
  destruct (embed_loop _ _ 0%nat [] w) as [[data|e] w1]; cbn in Hc |- *.
  - left. split; [tauto|exact Hc].
  - right. split; [reflexivity|]. exists e. now rewrite Hc.
Qed.

(** ** Statuses, logging and headers of the dispatcher *)

Lemma fetch_outcome request w :
  exists resp w',
    fetch request w = (Normal resp, w')
    /\ ((status resp = 200 \/ status resp = 400 \/ status resp = 404
         \/ status resp = 405)
        /\ console w' = console w
        \/ status resp = 500
           /\ exists label e, console w' = console w ++ [(label, e)]).
Proof.
  destruct (String.eqb_spec (method request) "OPTIONS") as [Hm|Hm].
  { rewrite (fetch_preflight _ _ Hm). eexists; eexists.
    split; [reflexivity|]. left. split; [cbn; tauto|reflexivity]. }
  destruct (routed_dec (pathname request)) as [[Hp|[Hp|[Hp|Hp]]]|Hp].
  - rewrite (fetch_root _ _ Hm Hp). eexists; eexists.
    split; [reflexivity|]. left. split; [cbn; tauto|reflexivity].
  - rewrite (fetch_models _ _ Hm Hp). eexists; eexists.
    split; [reflexivity|]. left. split; [cbn; tauto|reflexivity].
  - rewrite (fetch_chat _ _ Hm Hp).
    pose proof (chat_outcome request corsHeaders w) as Ho.
    destruct (handleChatCompletions request corsHeaders w) as [[resp|e] w1];
      eexists; eexists; (split; [reflexivity|]).
    + destruct Ho as [[Hst Hc]|[Hst (e & Hc)]];
        [left; split; [tauto|exact Hc]|right; split; [exact Hst|eauto]].
    + subst w1. right. split; [reflexivity|]. eexists; eexists. reflexivity.
  - rewrite (fetch_embeddings _ _ Hm Hp).
    pose proof (embeddings_outcome request corsHeaders w) as Ho.
    destruct (handleEmbeddings request corsHeaders w) as [[resp|e] w1];
      eexists; eexists; (split; [reflexivity|]).
    + destruct Ho as [[Hst Hc]|[Hst (e & Hc)]];
        [left; split; [tauto|exact Hc]|right; split; [exact Hst|eauto]].
    + subst w1. right. split; [reflexivity|]. eexists; eexists. reflexivity.
  - rewrite (fetch_unrouted _ _ Hm Hp). eexists; eexists.
    split; [reflexivity|]. left. split; [cbn; tauto|reflexivity].
Qed.

(** X3: the dispatcher answers every request, and the status of its answer
    is one of 200, 400, 404, 405 and 500. *)
Theorem status_is_one_of_five request w :
  exists resp w',
    fetch request w = (Normal resp, w')
    /\ In (status resp) [200; 400; 404; 405; 500].
Proof.
  destruct (fetch_outcome request w) as (resp & w' & E & Ho).
  exists resp, w'. split; [exact E|]. cbn.
  destruct Ho as [[Hst _]|[Hst _]]; intuition auto.
Qed.

(** X4: a 500 answer of the dispatcher comes with exactly one new line on
    the error console, and an answer with any other status with none. *)
Theorem faults_are_logged_once request w resp w' :
  fetch request w = (Normal resp, w') ->
  (status resp = 500 ->
   exists label e, console w' = console w ++ [(label, e)])
  /\ (status resp <> 500 -> console w' = console w).
Proof.
  intros E. destruct (fetch_outcome request w) as (resp1 & w1 & E1 & Ho).
  rewrite E in E1. injection E1 as <- <-.
  destruct Ho as [[Hst Hc]|[Hst Hc]]; split; intros Hs.
  - rewrite Hs in Hst. destruct Hst as [X|[X|[X|X]]]; discriminate X.
  - exact Hc.
  - exact Hc.
  - contradiction.
Qed.

Lemma fetch_headers request w resp w' :
  method request <> "OPTIONS" ->
  fetch request w = (Normal resp, w') ->
  headers resp = json_headers corsHeaders.
Proof.
  intros Hm E.
  destruct (routed_dec (pathname request)) as [[Hp|[Hp|[Hp|Hp]]]|Hp].
  - rewrite (fetch_root _ _ Hm Hp) in E. now injection E as <- <-.
  - rewrite (fetch_models _ _ Hm Hp) in E. now injection E as <- <-.
  - rewrite (fetch_chat _ _ Hm Hp) in E.
    destruct (handleChatCompletions request corsHeaders w)
      as [[resp1|e] w1] eqn:Eh; injection E as <- <-; [|reflexivity].
    exact (chat_headers _ _ _ _ _ Eh).
  - rewrite (fetch_embeddings _ _ Hm Hp) in E.
    destruct (handleEmbeddings request corsHeaders w)
      as [[resp1|e] w1] eqn:Eh; injection E as <- <-; [|reflexivity].
    exact (embeddings_headers _ _ _ _ _ Eh).
  - rewrite (fetch_unrouted _ _ Hm Hp) in E. now injection E as <- <-.
Qed.

(** X5: every answer of the dispatcher to a request other than a pre-flight
    one has exactly four headers, [Content-Type: application/json] followed
    by the three CORS headers, whatever its status; the pre-flight answer
    has no [Content-Type]. *)
Theorem answers_are_typed_json request w resp w' :
  fetch request w = (Normal resp, w') ->
  (method request <> "OPTIONS" ->
   headers resp = ("Content-Type", "application/json") :: corsHeaders)
  /\ (method request = "OPTIONS" ->
      lookup "Content-Type" (headers resp) = None).
Proof.
  intros E. split; intros Hm.
  - exact (fetch_headers _ _ _ _ Hm E).
  - rewrite (fetch_preflight _ _ Hm) in E. now injection E as <- <-.
Qed.

(** ** When a handler faults *)

Lemma chat_parse_fault request h w e :
  method request = "POST" -> json request = Throw e ->
  handleChatCompletions request h w = (Throw e, w).
Proof.
  intros Hm Hj. unfold handleChatCompletions. rewrite (post_guard _ Hm).
  unfold bind, request_json. now rewrite Hj.
Qed.

Lemma embeddings_parse_fault request h w e :
  method request = "POST" -> json request = Throw e ->
  handleEmbeddings request h w = (Throw e, w).
Proof.
  intros Hm Hj. unfold handleEmbeddings. rewrite (post_guard _ Hm).
  unfold bind, request_json. now rewrite Hj.
Qed.

Lemma chat_null_body request h w b :
  method request = "POST" -> json request = Normal b -> nullish b = true ->
  handleChatCompletions request h w
  = (Throw (ErrorObj "TypeError" (TypeError_message b "messages")), w).
Proof.
  intros Hm Hj Hb. unfold handleChatCompletions. rewrite (post_guard _ Hm).
  unfold bind at 1, request_json. rewrite Hj.
  unfold bind, get_prop. now rewrite Hb.
Qed.

Lemma embeddings_null_body request h w b :
  method request = "POST" -> json request = Normal b -> nullish b = true ->
  handleEmbeddings request h w
  = (Throw (ErrorObj "TypeError" (TypeError_message b "input")), w).
Proof.
  intros Hm Hj Hb. unfold handleEmbeddings. rewrite (post_guard _ Hm).
  unfold bind at 1, request_json. rewrite Hj.
  unfold bind, get_prop. now rewrite Hb.
Qed.

Lemma chat_no_fault request h w b :
  json request = Normal b -> nullish b = false ->
  exists resp w', handleChatCompletions request h w = (Normal resp, w').
Proof.
  intros Hj Hb. unfold handleChatCompletions.
  destruct (negb (method request =? "POST")%string);
    [eexists; eexists; reflexivity|].
  unfold bind at 1, request_json. rewrite Hj.
  unfold bind at 1. rewrite (get_prop_ok _ _ _ Hb).
  destruct (negb (truthy (prop b "messages"))
            || negb (isArray (prop b "messages")));
    [eexists; eexists; reflexivity|].
  unfold_monad. crunch; eexists; eexists; reflexivity.
Qed.

Lemma embeddings_no_fault request h w b :
  json request = Normal b -> nullish b = false ->
  exists resp w', handleEmbeddings request h w = (Normal resp, w').
Proof.
  intros Hj Hb. unfold handleEmbeddings.
  destruct (negb (method request =? "POST")%string);
    [eexists; eexists; reflexivity|].
  unfold bind at 1, request_json. rewrite Hj.
  unfold bind at 1. rewrite (get_prop_ok _ _ _ Hb).
  destruct (negb (truthy (prop b "input")));
    [eexists; eexists; reflexivity|].
  unfold try_catch, bind.
  destruct (embed_loop _ _ 0%nat [] w) as [[data|e] w1];
    eexists; eexists; reflexivity.
Qed.

Lemma non_post_no_fault request h w :
  method request <> "POST" ->
  (exists resp, handleChatCompletions request h w = (Normal resp, w))
  /\ (exists resp, handleEmbeddings request h w = (Normal resp, w)).
Proof.
  intros Hm. unfold handleChatCompletions, handleEmbeddings.
  rewrite (non_post_guard _ Hm). split; eexists; reflexivity.
Qed.

(** X6: a fault leaves the chat handler, and likewise the embeddings
    handler, exactly when the method is POST and the body does not parse or
    parses to [null]; a rejected backend call, a backend result that cannot
    be read, a wrong method and a missing field never make a handler
    fault. *)
Theorem handlers_fault_only_on_body request h w :
  ((exists e w', handleChatCompletions request h w = (Throw e, w'))
   <-> method request = "POST" /\ unusable_body request)
  /\ ((exists e w', handleEmbeddings request h w = (Throw e, w'))
      <-> method request = "POST" /\ unusable_body request).
Proof.
  assert (Hcases :
    method request <> "POST"
    \/ method request = "POST" /\ unusable_body request
    \/ method request = "POST"
       /\ exists b, json request = Normal b /\ nullish b = false).
  { destruct (String.eqb_spec (method request) "POST") as [Hm|Hm]; [|tauto].
    right. unfold unusable_body. destruct (json request) as [b|e];
      [|left; split; [exact Hm|left; eauto]].
    destruct (nullish b) eqn:Hb;
      [left; split; [exact Hm|right; eauto]|right; eauto]. }
  split; split.
  - intros (e & w' & E).
    destruct Hcases as [Hm|[Hu|(Hm & b & Hj & Hb)]]; [|exact Hu|].
    + destruct (non_post_no_fault request h w Hm) as [(resp & E') _].
      congruence.
    + destruct (chat_no_fault request h w b Hj Hb) as (resp & w1 & E').
      congruence.
  - intros (Hm & [(e & Hj)|(b & Hj & Hb)]).
    + eexists; eexists. apply (chat_parse_fault _ _ _ _ Hm Hj).
    + eexists; eexists. apply (chat_null_body _ _ _ _ Hm Hj Hb).
  - intros (e & w' & E).
    destruct Hcases as [Hm|[Hu|(Hm & b & Hj & Hb)]]; [|exact Hu|].
    + destruct (non_post_no_fault request h w Hm) as [_ (resp & E')].
      congruence.
    + destruct (embeddings_no_fault request h w b Hj Hb) as (resp & w1 & E').
      congruence.
  - intros (Hm & [(e & Hj)|(b & Hj & Hb)]).
    + eexists; eexists. apply (embeddings_parse_fault _ _ _ _ Hm Hj).
    + eexists; eexists. apply (embeddings_null_body _ _ _ _ Hm Hj Hb).
Qed.

(** X7: a POST to the chat or the embeddings path whose body parses to
    [null] is answered by the dispatcher with status 500 and the
    "Internal server error" envelope, whose message is that of the
    [TypeError] of the destructuring; the backend is not called. *)
Theorem null_body_is_internal_error request w b :
  method request = "POST" ->
  json request = Normal b ->
  nullish b = true ->
  pathname request = "/v1/chat/completions"
  \/ pathname request = "/v1/embeddings" ->
  exists resp w' k,
    fetch request w = (Normal resp, w')
    /\ status resp = 500
    /\ json_of resp = JObj [("error", JStr "Internal server error");
                            ("message", TypeError_message b k)]
    /\ (k = "messages" \/ k = "input")
    /\ ai_calls w' = ai_calls w.
Proof.
  intros Hm Hj Hb Hp.
  assert (Ho : method request <> "OPTIONS") by (rewrite Hm; discriminate).
  destruct Hp as [Hp|Hp].
  - rewrite (fetch_chat _ _ Ho Hp), (chat_null_body _ _ _ _ Hm Hj Hb).
    eexists; eexists; exists "messages". split; [reflexivity|].
    repeat split. now left.
  - rewrite (fetch_embeddings _ _ Ho Hp),
      (embeddings_null_body _ _ _ _ Hm Hj Hb).
    eexists; eexists; exists "input". split; [reflexivity|].
    repeat split. now right.
Qed.

(** ** Objects: what a spread and a rest pattern keep *)

Lemma lookup_absent {A : Type} k (o : object A) :
  ~ In k (keys o) -> lookup k o = None.
Proof.
  induction o as [|[k' v] o IH]; intros Hk; [reflexivity|].
  cbn in *. destruct (String.eqb_spec k' k); [tauto|]. apply IH. tauto.
Qed.

Lemma lookup_define_same {A : Type} k (v : A) o :
  lookup k (define k v o) = Some v.
Proof.
  induction o as [|[k' v'] o IH]; cbn.
  - now rewrite String.eqb_refl.
  - destruct (String.eqb_spec k' k) as [->|Hn]; cbn.
    + now rewrite String.eqb_refl.
    + apply String.eqb_neq in Hn. now rewrite Hn.
Qed.

Lemma lookup_define_other {A : Type} k k' (v : A) o :
  k <> k' -> lookup k' (define k v o) = lookup k' o.
Proof.
  intros Hn. induction o as [|[k1 v1] o IH]; cbn.
  - apply String.eqb_neq in Hn. now rewrite Hn.
  - destruct (String.eqb_spec k1 k) as [->|Hk1]; cbn.
    + apply String.eqb_neq in Hn. now rewrite Hn.
    + now rewrite IH.
Qed.

(** In [{ ...base, ...extra }] a key of [extra] has the value [extra] gives
    it, and any other key the value [base] gives it. *)
Lemma lookup_spread {A : Type} k (extra : object A) :
  NoDup (keys extra) ->
  forall base,
    lookup k (spread base extra)
    = match lookup k extra with Some v => Some v | None => lookup k base end.
Proof.
  unfold spread.
  induction extra as [|[k1 v1] extra IH]; intros Hnd base; [reflexivity|].
  cbn in Hnd. inversion Hnd as [|? ? Hnotin Hnd']; subst.
  cbn [fold_left fst snd lookup]. rewrite (IH Hnd').
  destruct (String.eqb_spec k1 k) as [->|Hn].
  - rewrite (lookup_absent _ _ Hnotin). apply lookup_define_same.
  - now rewrite (lookup_define_other _ _ _ _ Hn).
Qed.

Lemma lookup_rest taken k (o : object value) :
  lookup k (filter (fun kv => negb (existsb (String.eqb (fst kv)) taken)) o)
  = if existsb (String.eqb k) taken then None else lookup k o.
Proof.
  induction o as [|[k' v] o IH]; cbn [filter lookup fst].
  - now destruct (existsb (String.eqb k) taken).
  - destruct (existsb (String.eqb k') taken) eqn:Hk'; cbn [negb].
    + rewrite IH. destruct (existsb (String.eqb k) taken) eqn:Hk;
        [reflexivity|].
      destruct (String.eqb_spec k' k) as [->|Hn]; [congruence|reflexivity].
    + cbn [lookup]. rewrite IH.
      destruct (String.eqb_spec k' k) as [->|Hn]; [now rewrite Hk'|reflexivity].
Qed.

Lemma keys_filter {A : Type} (f : string * A -> bool) k (o : object A) :
  In k (keys (filter f o)) -> In k (keys o).
Proof.
  induction o as [|kv o IH]; cbn; [tauto|].
  destruct (f kv); cbn; tauto.
Qed.

Lemma NoDup_keys_filter {A : Type} (f : string * A -> bool) (o : object A) :
  NoDup (keys o) -> NoDup (keys (filter f o)).
Proof.
  induction o as [|kv o IH]; cbn; intros Hnd; [constructor|].
  inversion Hnd as [|? ? Hnotin Hnd']; subst.
  destruct (f kv); cbn; [|now apply IH].
  constructor; [|now apply IH]. intros Hin. apply Hnotin.
  exact (keys_filter f _ _ Hin).
Qed.

(** What [{ messages, stream, ...otherParams }] holds when [otherParams] is
    the rest of a body with distinct keys. *)
Lemma chat_params_props o messages stream :
  NoDup (keys o) ->
  let p := chat_params messages stream
             (rest_props ["messages"; "model"; "stream"] (JObj o)) in
  prop p "messages" = messages
  /\ prop p "stream" = stream
  /\ prop p "model" = JUndefined
  /\ forall k, k <> "messages" -> k <> "model" -> k <> "stream" ->
       prop p k = prop (JObj o) k.
Proof.
  intros Hnd p. subst p. unfold chat_params, rest_props, own_props, prop.
  pose proof (NoDup_keys_filter
                (fun kv => negb (existsb (String.eqb (fst kv))
                                   ["messages"; "model"; "stream"]))
                o Hnd) as Hnd'.
  repeat split.
  - rewrite (lookup_spread _ _ Hnd'), lookup_rest. reflexivity.
  - rewrite (lookup_spread _ _ Hnd'), lookup_rest. reflexivity.
  - rewrite (lookup_spread _ _ Hnd'), lookup_rest. reflexivity.
  - intros k H1 H2 H3. rewrite (lookup_spread _ _ Hnd'), lookup_rest.
    cbn [existsb]. apply String.eqb_neq in H1 as E1.
    apply String.eqb_neq in H2 as E2. apply String.eqb_neq in H3 as E3.
    rewrite E1, E2, E3. cbn [orb].
    destruct (lookup k o); [reflexivity|]. cbn [lookup].
    rewrite String.eqb_sym, E1, String.eqb_sym, E3. reflexivity.
Qed.

(** ** The chat call *)

(** X8: on a POST whose body is an object with distinct keys and a
    [messages] array, the chat handler calls the backend exactly once.  The
    model of the call is the body's [model], or the default one when the
    body has none; the parameters carry [messages], [stream] (false when
    the body has none), every other field of the body with its value, and
    no [model]. *)
Theorem chat_call_forwards_body request h w o ms :
  method request = "POST" ->
  json request = Normal (JObj o) ->
  NoDup (keys o) ->
  lookup "messages" o = Some (JArr ms) ->
  exists c,
    ai_calls (snd (handleChatCompletions request h w)) = ai_calls w ++ [c]
    /\ call_model c = default_to default_chat_model (prop (JObj o) "model")
    /\ prop (call_params c) "messages" = JArr ms
    /\ prop (call_params c) "stream"
       = default_to (JBool false) (prop (JObj o) "stream")
    /\ prop (call_params c) "model" = JUndefined
    /\ forall k, k <> "messages" -> k <> "model" -> k <> "stream" ->
         prop (call_params c) k = prop (JObj o) k.
Proof.
  intros Hm Hj Hnd Hl.
  assert (Hms : prop (JObj o) "messages" = JArr ms) by (cbn; now rewrite Hl).
  pose proof (chat_run _ h w _ _ Hm Hj Hms) as Hrun. cbv zeta in Hrun.
  set (model := default_to default_chat_model (prop (JObj o) "model")) in *.
  set (stream := default_to (JBool false) (prop (JObj o) "stream")) in *.
  set (params := chat_params (JArr ms) stream
                   (rest_props ["messages"; "model"; "stream"] (JObj o))) in *.
  exists {| call_model := model; call_params := params;
            call_result := fst (AI_run model params (host w)) |}.
  split.
  - rewrite Hrun. destruct (AI_run model params (host w)) as [[r|e] s];
      [destruct (nullish r)|]; reflexivity.
  - split; [reflexivity|]. cbn [call_params].
    exact (chat_params_props o (JArr ms) stream Hnd).
Qed.

(** X9: on a POST with a [messages] array, a rejected backend call and a
    backend result that is [null] or [undefined] both end in status 500
    with the envelope [{error: "Failed to generate completion", message}];
    the message is the fault's own when the fault is an [Error], "Unknown
    error" when it is not, and that of the [TypeError] of the read when the
    result cannot be read. *)
Theorem chat_backend_fault_is_reported request h w b ms :
  method request = "POST" ->
  json request = Normal b ->
  prop b "messages" = JArr ms ->
  let model := default_to default_chat_model (prop b "model") in
  let params :=
    chat_params (JArr ms) (default_to (JBool false) (prop b "stream"))
      (rest_props ["messages"; "model"; "stream"] b) in
  let reported message :=
    exists resp w',
      handleChatCompletions request h w = (Normal resp, w')
      /\ status resp = 500
      /\ json_of resp = JObj [("error", JStr "Failed to generate completion");
                              ("message", message)] in
  (forall name message s,
      AI_run model params (host w) = (Throw (ErrorObj name message), s) ->
      reported message)
  /\ (forall v s,
        AI_run model params (host w) = (Throw (NonError v), s) ->
        reported (JStr "Unknown error"))
  /\ (forall r s,
        AI_run model params (host w) = (Normal r, s) ->
        nullish r = true ->
        reported (TypeError_message r "response")).
Proof.
  intros Hm Hj Hms model params reported.
  pose proof (chat_run _ h w _ _ Hm Hj Hms) as Hrun. cbv zeta in Hrun.
  fold model params in Hrun. subst reported. cbv beta.
  split; [|split].
  - intros name message s E. rewrite E in Hrun.
    eexists; eexists. split; [exact Hrun|]. split; reflexivity.
  - intros v s E. rewrite E in Hrun.
    eexists; eexists. split; [exact Hrun|]. split; reflexivity.
  - intros r s E Hr. rewrite E, Hr in Hrun.
    eexists; eexists. split; [exact Hrun|]. split; reflexivity.
Qed.

(** X10: in a chat success the clock is read twice, after the backend call:
    [id] is "chatcmpl-" followed by the first reading in decimal, [created]
    is the second reading in whole seconds (rounded down), [model] is the
    model the backend was called with, [object] is "chat.completion", and
    [choices] holds a single choice, of index 0 and role "assistant". *)
Theorem chat_envelope_metadata request h w b ms r s t1 s1 t2 s2 :
  method request = "POST" ->
  json request = Normal b ->
  prop b "messages" = JArr ms ->
  let model := default_to default_chat_model (prop b "model") in
  let params :=
    chat_params (JArr ms) (default_to (JBool false) (prop b "stream"))
      (rest_props ["messages"; "model"; "stream"] b) in
  AI_run model params (host w) = (Normal r, s) ->
  nullish r = false ->
  Date_now s = (t1, s1) ->
  Date_now s1 = (t2, s2) ->
  exists resp w' created choice,
    handleChatCompletions request h w = (Normal resp, w')
    /\ host w' = s2
    /\ prop (json_of resp) "id" = JStr ("chatcmpl-" ++ string_of_Z t1)%string
    /\ prop (json_of resp) "created" = JNum created
    /\ 1000 * created <= t2 < 1000 * created + 1000
    /\ prop (json_of resp) "model" = model
    /\ prop (json_of resp) "object" = JStr "chat.completion"
    /\ prop (json_of resp) "choices" = JArr [choice]
    /\ prop choice "index" = JNum 0
    /\ prop (prop choice "message") "role" = JStr "assistant".
Proof.
  intros Hm Hj Hms model params Hai Hr H1 H2.
  pose proof (chat_run _ h w _ _ Hm Hj Hms) as Hrun. cbv zeta in Hrun.
  fold model params in Hrun. rewrite Hai, Hr, H1 in Hrun.
  cbn [fst snd] in Hrun. rewrite H2 in Hrun. cbn [fst snd] in Hrun.
  eexists; eexists; exists (t2 / 1000); eexists.
  split; [exact Hrun|]. split; [reflexivity|]. split; [reflexivity|].
  split; [reflexivity|].
  split; [pose proof (Z.mul_div_le t2 1000);
          pose proof (Z.mod_pos_bound t2 1000);
          pose proof (Z.div_mod t2 1000); lia|].
  repeat split.
Qed.

(** ** The embedding calls *)

(** X11: past validation, the embeddings handler calls the backend with the
    model of the request (the default one when the body has none) and with
    [{text: x}] for the elements [x] of the normalized input, one call per
    element, in order and from the first element on; it makes no call
    beyond the input, and in a success it has made one for every
    element. *)
Theorem embedding_calls_follow_input request h w b :
  method request = "POST" ->
  json request = Normal b ->
  truthy (prop b "input") = true ->
  let model := default_to default_embedding_model (prop b "model") in
  let inputs := normalize_input (prop b "input") in
  exists calls,
    ai_calls (snd (handleEmbeddings request h w)) = ai_calls w ++ calls
    /\ Forall (fun c => call_model c = model) calls
    /\ map call_params calls
       = map text_param (firstn (List.length calls) inputs)
    /\ (List.length calls <= List.length inputs)%nat
    /\ forall resp,
         fst (handleEmbeddings request h w) = Normal resp ->
         status resp = 200 ->
         map call_params calls = map text_param inputs.
Proof.
  intros Hm Hj Hi model inputs.
  rewrite (embeddings_run _ h w _ Hm Hj Hi). cbv zeta. fold model inputs.
  destruct (embed_loop_trace model inputs 0 [] w)
    as (calls & Hlog & Hmodel & Hparams & Hlen & Hout).
  exists calls.
  destruct (embed_loop model inputs 0 [] w) as [[data|e] w1];
    cbn [fst snd ai_calls] in *.
  - repeat (split; [assumption|]). intros resp _ _.
    destruct Hout as (Hfull & _). rewrite Hparams, Hfull.
    now rewrite firstn_all.
  - repeat (split; [assumption|]). intros resp E Hst.
    injection E as <-. discriminate Hst.
Qed.

(** X12: in a success of the embeddings handler, entry [k] of [data] is
    built from the result of call [k]: its [embedding] is the result's
    [data] field when that field is truthy and the raw result otherwise,
    and its [object] is "embedding". *)
Theorem embedding_vectors_are_normalized request h w b resp w' calls :
  method request = "POST" ->
  json request = Normal b ->
  truthy (prop b "input") = true ->
  handleEmbeddings request h w = (Normal resp, w') ->
  status resp = 200 ->
  ai_calls w' = ai_calls w ++ calls ->
  exists data,
    prop (json_of resp) "data" = JArr data
    /\ forall k c, nth_error calls k = Some c ->
         exists r d,
           call_result c = Normal r
           /\ nth_error data k = Some d
           /\ prop d "embedding" = normalized "data" r
           /\ prop d "object" = JStr "embedding".
Proof.
  intros Hm Hj Hi Hrun Hst Hcalls.
  rewrite (embeddings_run _ h w _ Hm Hj Hi) in Hrun. cbv zeta in Hrun.
  set (model := default_to default_embedding_model (prop b "model")) in *.
  set (inputs := normalize_input (prop b "input")) in *.
  destruct (embed_loop_trace model inputs 0 [] w)
    as (calls' & Hlog & _ & _ & _ & Hout).
  destruct (embed_loop model inputs 0 [] w) as [[data|e] w1];
    injection Hrun as <- <-; [|discriminate Hst].
  cbn [fst snd ai_calls] in *.
  rewrite Hlog in Hcalls. apply app_inv_head in Hcalls. subst calls'.
  destruct Hout as (_ & _ & new & Hdata & Hnew). cbn [app] in Hdata.
  subst new. exists data. split; [reflexivity|].
  intros k c Hk. destruct (Hnew k c Hk) as (r & Hr & Hd).
  exists r. eexists. split; [exact Hr|]. split; [exact Hd|].
  split; reflexivity.
Qed.

(** X13: a success of the embeddings handler is the envelope
    [{object: "list", data, model, usage}] in which [model] is the body's
    [model] (the default one when the body has none, and [null] when the
    body says [null]) and [usage] has [prompt_tokens] and [total_tokens],
    both 0, and no [completion_tokens]. *)
Theorem embedding_envelope_echoes_model request h w b resp w' :
  method request = "POST" ->
  json request = Normal b ->
  truthy (prop b "input") = true ->
  handleEmbeddings request h w = (Normal resp, w') ->
  status resp = 200 ->
  prop (json_of resp) "object" = JStr "list"
  /\ prop (json_of resp) "model"
     = default_to default_embedding_model (prop b "model")
  /\ (prop b "model" = JUndefined ->
      prop (json_of resp) "model" = JStr "@cf/baai/bge-large-en-v1.5")
  /\ (prop b "model" = JNull -> prop (json_of resp) "model" = JNull)
  /\ prop (json_of resp) "usage"
     = JObj [("prompt_tokens", JNum 0); ("total_tokens", JNum 0)].
Proof.
  intros Hm Hj Hi Hrun Hst.
  rewrite (embeddings_run _ h w _ Hm Hj Hi) in Hrun. cbv zeta in Hrun.
  destruct (embed_loop _ _ 0%nat [] w) as [[data|e] w1];
    injection Hrun as <- <-; [|discriminate Hst].
  split; [reflexivity|]. split; [reflexivity|].
  split; [intros ->; reflexivity|]. split; [intros ->; reflexivity|].
  reflexivity.
Qed.

(** ** What reaches the backend *)

(** X14: the dispatcher calls the backend only for a POST to the chat path
    whose parsed body has a [messages] array, or for a POST to the
    embeddings path whose parsed body has a truthy [input]; every other
    request (another method, another path, a body that does not parse or
    parses to [null], a missing field) leaves the call log as it was. *)
Theorem backend_reached_only_by_valid_posts request w :
  ai_calls (snd (fetch request w)) <> ai_calls w ->
  method request = "POST"
  /\ exists b,
      json request = Normal b
      /\ nullish b = false
      /\ (pathname request = "/v1/chat/completions"
          /\ isArray (prop b "messages") = true
          \/ pathname request = "/v1/embeddings"
             /\ truthy (prop b "input") = true).
Proof.
  intros Hcalls.
  destruct (String.eqb_spec (method request) "OPTIONS") as [Ho|Ho].
  { rewrite (fetch_preflight _ _ Ho) in Hcalls. now contradiction Hcalls. }
  destruct (routed_dec (pathname request)) as [[Hp|[Hp|[Hp|Hp]]]|Hp].
  - rewrite (fetch_root _ _ Ho Hp) in Hcalls. now contradiction Hcalls.
  - rewrite (fetch_models _ _ Ho Hp) in Hcalls. now contradiction Hcalls.
  - rewrite (fetch_chat _ _ Ho Hp) in Hcalls.
    destruct (String.eqb_spec (method request) "POST") as [Hm|Hm].
    2:{ destruct (non_post_no_fault request corsHeaders w Hm)
          as [(resp & E) _].
        rewrite E in Hcalls. now contradiction Hcalls. }
    split; [exact Hm|].
    destruct (json request) as [b|e] eqn:Hj.
    2:{ rewrite (chat_parse_fault _ _ _ _ Hm Hj) in Hcalls.
        now contradiction Hcalls. }
    destruct (nullish b) eqn:Hb.
    { rewrite (chat_null_body _ _ _ _ Hm Hj Hb) in Hcalls.
      now contradiction Hcalls. }
    destruct (isArray (prop b "messages")) eqn:Harr.
    2:{ rewrite (chat_validation _ _ _ _ Hm Hj Hb Harr) in Hcalls.
        now contradiction Hcalls. }
    exists b. split; [reflexivity|]. split; [exact Hb|]. left. now split.
  - rewrite (fetch_embeddings _ _ Ho Hp) in Hcalls.
    destruct (String.eqb_spec (method request) "POST") as [Hm|Hm].
    2:{ destruct (non_post_no_fault request corsHeaders w Hm)
          as [_ (resp & E)].
        rewrite E in Hcalls. now contradiction Hcalls. }
    split; [exact Hm|].
    destruct (json request) as [b|e] eqn:Hj.
    2:{ rewrite (embeddings_parse_fault _ _ _ _ Hm Hj) in Hcalls.
        now contradiction Hcalls. }
    destruct (nullish b) eqn:Hb.
    { rewrite (embeddings_null_body _ _ _ _ Hm Hj Hb) in Hcalls.
      now contradiction Hcalls. }
    destruct (truthy (prop b "input")) eqn:Hi.
    2:{ rewrite (embeddings_validation _ _ _ _ Hm Hj Hb Hi) in Hcalls.
        now contradiction Hcalls. }
    exists b. split; [reflexivity|]. split; [exact Hb|]. right. now split.
  - rewrite (fetch_unrouted _ _ Ho Hp) in Hcalls. now contradiction Hcalls.
Qed.

(** ** Which status when *)

Lemma isArray_elts v : isArray v = true -> exists l, v = JArr l.
Proof. destruct v; try discriminate. eauto. Qed.

(** The four ways through the chat handler. *)
Lemma chat_cases request h w :
  (method request <> "POST"
   /\ exists resp,
       handleChatCompletions request h w = (Normal resp, w)
       /\ status resp = 405)
  \/ (method request = "POST" /\ unusable_body request
      /\ exists e, handleChatCompletions request h w = (Throw e, w))
  \/ (method request = "POST"
      /\ (exists b, json request = Normal b /\ nullish b = false
                    /\ isArray (prop b "messages") = false)
      /\ exists resp,
          handleChatCompletions request h w = (Normal resp, w)
          /\ status resp = 400)
  \/ (method request = "POST"
      /\ (exists b, json request = Normal b /\ nullish b = false
                    /\ isArray (prop b "messages") = true)
      /\ exists resp w',
          handleChatCompletions request h w = (Normal resp, w')
          /\ (status resp = 200 \/ status resp = 500)).
Proof.
  destruct (String.eqb_spec (method request) "POST") as [Hm|Hm].
  2:{ left. split; [exact Hm|]. unfold handleChatCompletions.
      rewrite (non_post_guard _ Hm). eexists. split; reflexivity. }
  right. destruct (json request) as [b|e] eqn:Hj.
  2:{ left. split; [exact Hm|]. split; [left; eauto|].
      exists e. apply (chat_parse_fault _ _ _ _ Hm Hj). }
  destruct (nullish b) eqn:Hb.
  { left. split; [exact Hm|]. split; [right; eauto|].
    eexists. apply (chat_null_body _ _ _ _ Hm Hj Hb). }
  right. destruct (isArray (prop b "messages")) eqn:Harr.
  2:{ left. split; [exact Hm|]. split; [eauto|].
      eexists. split; [apply (chat_validation _ _ _ _ Hm Hj Hb Harr)|].
      reflexivity. }
  right. split; [exact Hm|]. split; [eauto|].
  destruct (isArray_elts _ Harr) as (ms & Hms).
  rewrite (chat_run _ h w _ _ Hm Hj Hms). cbv zeta.
  destruct (AI_run _ _ (host w)) as [[r|e] s];
    [destruct (nullish r)|]; eexists; eexists;
    (split; [reflexivity|]); cbn; tauto.
Qed.

Lemma embeddings_cases request h w :
  (method request <> "POST"
   /\ exists resp,
       handleEmbeddings request h w = (Normal resp, w)
       /\ status resp = 405)
  \/ (method request = "POST" /\ unusable_body request
      /\ exists e, handleEmbeddings request h w = (Throw e, w))
  \/ (method request = "POST"
      /\ (exists b, json request = Normal b /\ nullish b = false
                    /\ truthy (prop b "input") = false)
      /\ exists resp,
          handleEmbeddings request h w = (Normal resp, w)
          /\ status resp = 400)
  \/ (method request = "POST"
      /\ (exists b, json request = Normal b /\ nullish b = false
                    /\ truthy (prop b "input") = true)
      /\ exists resp w',
          handleEmbeddings request h w = (Normal resp, w')
          /\ (status resp = 200 \/ status resp = 500)).
Proof.
  destruct (String.eqb_spec (method request) "POST") as [Hm|Hm].
  2:{ left. split; [exact Hm|]. unfold handleEmbeddings.
      rewrite (non_post_guard _ Hm). eexists. split; reflexivity. }
  right. destruct (json request) as [b|e] eqn:Hj.
  2:{ left. split; [exact Hm|]. split; [left; eauto|].
      exists e. apply (embeddings_parse_fault _ _ _ _ Hm Hj). }
  destruct (nullish b) eqn:Hb.
  { left. split; [exact Hm|]. split; [right; eauto|].
    eexists. apply (embeddings_null_body _ _ _ _ Hm Hj Hb). }
  right. destruct (truthy (prop b "input")) eqn:Hi.
  2:{ left. split; [exact Hm|]. split; [eauto|].
      eexists. split; [apply (embeddings_validation _ _ _ _ Hm Hj Hb Hi)|].
      reflexivity. }
  right. split; [exact Hm|]. split; [eauto|].
  rewrite (embeddings_run _ h w _ Hm Hj Hi). cbv zeta.
  destruct (embed_loop _ _ 0%nat [] w) as [[data|e] w1];
    eexists; eexists; (split; [reflexivity|]); cbn; tauto.
Qed.

(** Reading the status back out of the cases. *)
Ltac status_clash :=
  match goal with
  | E : ?run = (Normal ?r1, _), E' : ?run = (Normal ?r2, _),
    S1 : status ?r1 = _, S2 : status ?r2 = _ |- _ =>
      rewrite E in E'; injection E' as <- <-; rewrite S1 in S2;
      discriminate S2
  | E : ?run = (Normal ?r1, _), E' : ?run = (Normal ?r2, _),
    S1 : status ?r1 = _, S2 : status ?r2 = _ \/ status ?r2 = _ |- _ =>
      rewrite E in E'; injection E' as <- <-; rewrite S1 in S2;
      destruct S2 as [S2|S2]; discriminate S2
  | E : ?run = (Normal _, _), E' : ?run = (Throw _, _) |- _ =>
      rewrite E in E'; discriminate E'
  end.

(** X15: the chat handler answers 405 exactly when the method is not POST,
    and 400 exactly when the method is POST, the body parsed to a value
    other than [null], and its [messages] is not an array (an empty array
    is one, and is let through). *)
Theorem chat_status_table request h w :
  ((exists resp w',
       handleChatCompletions request h w = (Normal resp, w')
       /\ status resp = 405)
   <-> method request <> "POST")
  /\ ((exists resp w',
         handleChatCompletions request h w = (Normal resp, w')
         /\ status resp = 400)
      <-> method request = "POST"
          /\ exists b, json request = Normal b /\ nullish b = false
                       /\ isArray (prop b "messages") = false).
Proof.
  destruct (chat_cases request h w)
    as [(Hm & resp0 & E0 & S0)
       |[(Hm & Hu & e0 & E0)
        |[(Hm & Hb & resp0 & E0 & S0)
         |(Hm & Hb & resp0 & w0 & E0 & S0)]]];
    (split; (split; [intros (resp & w' & E & S)|intros Hyp]));
    try tauto; try status_clash; eauto.
  - destruct Hyp as (_ & b & Hj & Hn & Harr).
    destruct Hu as [(e & He)|(b' & Hj' & Hn')]; congruence.
  - destruct Hyp as (_ & b & Hj & Hn & Harr).
    destruct Hb as (b' & Hj' & Hn' & Harr'). congruence.
Qed.

(** X16: the embeddings handler answers 405 exactly when the method is not
    POST, and 400 exactly when the method is POST, the body parsed to a
    value other than [null], and its [input] is falsy. *)
Theorem embeddings_status_table request h w :
  ((exists resp w',
       handleEmbeddings request h w = (Normal resp, w')
       /\ status resp = 405)
   <-> method request <> "POST")
  /\ ((exists resp w',
         handleEmbeddings request h w = (Normal resp, w')
         /\ status resp = 400)
      <-> method request = "POST"
          /\ exists b, json request = Normal b /\ nullish b = false
                       /\ truthy (prop b "input") = false).
Proof.
  destruct (embeddings_cases request h w)
    as [(Hm & resp0 & E0 & S0)
       |[(Hm & Hu & e0 & E0)
        |[(Hm & Hb & resp0 & E0 & S0)
         |(Hm & Hb & resp0 & w0 & E0 & S0)]]];
    (split; (split; [intros (resp & w' & E & S)|intros Hyp]));
    try tauto; try status_clash; eauto.
  - destruct Hyp as (_ & b & Hj & Hn & Harr).
    destruct Hu as [(e & He)|(b' & Hj' & Hn')]; congruence.
  - destruct Hyp as (_ & b & Hj & Hn & Harr).
    destruct Hb as (b' & Hj' & Hn' & Harr'). congruence.
Qed.

(** ** A result that cannot be read *)

Lemma answered_not_unreadable c : answered c -> unreadable c -> False.
Proof. intros (r & E & Hr) (v & E' & Hv). congruence. Qed.

(** X17: when, in the course of an embeddings request past validation, a
    backend call returns [null] or [undefined], the handler answers with
    status 500 and [{error: "Failed to generate embeddings", message}]
    whose message is that of the [TypeError] of reading [data]; that call
    is the last one made, and every call before it was answered. *)
Theorem unreadable_result_aborts_batch request h w b calls :
  method request = "POST" ->
  json request = Normal b ->
  truthy (prop b "input") = true ->
  ai_calls (snd (handleEmbeddings request h w)) = ai_calls w ++ calls ->
  Exists unreadable calls ->
  exists resp v,
    fst (handleEmbeddings request h w) = Normal resp
    /\ status resp = 500
    /\ json_of resp = JObj [("error", JStr "Failed to generate embeddings");
                            ("message", TypeError_message v "data")]
    /\ exists pre c,
        calls = pre ++ [c] /\ Forall answered pre
        /\ call_result c = Normal v.
Proof.
  intros Hm Hj Hi Hcalls Hbad.
  rewrite (embeddings_run _ h w _ Hm Hj Hi) in *. cbv zeta in *.
  set (model := default_to default_embedding_model (prop b "model")) in *.
  set (inputs := normalize_input (prop b "input")) in *.
  destruct (embed_loop_trace model inputs 0 [] w)
    as (calls' & Hlog & _ & _ & _ & Hout).
  destruct (embed_loop model inputs 0 [] w) as [[data|e] w1];
    cbn [fst snd ai_calls] in *;
    rewrite Hlog in Hcalls; apply app_inv_head in Hcalls; subst calls'.
  - exfalso. destruct Hout as (_ & Hans & _).
    apply Exists_exists in Hbad. destruct Hbad as (c & Hin & Hc).
    rewrite Forall_forall in Hans.
    exact (answered_not_unreadable c (Hans c Hin) Hc).
  - destruct Hout as (pre & c & -> & Hpre & Hc).
    assert (Hlast : unreadable c).
    { apply Exists_app in Hbad. destruct Hbad as [Hbad|Hbad].
      - exfalso. apply Exists_exists in Hbad.
        destruct Hbad as (c' & Hin & Hc'). rewrite Forall_forall in Hpre.
        exact (answered_not_unreadable c' (Hpre c' Hin) Hc').
      - inversion Hbad as [? ? Hc'|? ? Hc']; [exact Hc'|inversion Hc']. }
    destruct Hc as [Hc|(v & Hv & Hn & ->)].
    + destruct Hlast as (v & Hv & _). congruence.
    + eexists; exists v. split; [reflexivity|]. split; [reflexivity|].
      split; [reflexivity|]. exists pre, c. now repeat split.
Qed.

(** ** The catalog and the defaults *)

(** X18: the five descriptors of the catalog have distinct ids, each is a
    "model" owned by "cloudflare" and created at 1677610602, and the
    default model of the chat handler and that of the embeddings handler
    are both among them. *)
Theorem catalog_lists_the_defaults :
  exists data,
    prop models "data" = JArr data
    /\ NoDup (map (fun d => prop d "id") data)
    /\ In default_chat_model (map (fun d => prop d "id") data)
    /\ In default_embedding_model (map (fun d => prop d "id") data)
    /\ Forall (fun d => prop d "object" = JStr "model"
                        /\ prop d "owned_by" = JStr "cloudflare"
                        /\ prop d "created" = JNum 1677610602) data.
Proof.
  eexists. split; [reflexivity|]. split; [|split; [|split]].
  - repeat constructor; cbn; intuition discriminate.
  - cbn. tauto.
  - cbn. tauto.
  - repeat constructor.
Qed.

End Routes.

(** * The further properties on sample requests *)

Lemma root_witness :
  exists resp,
    fetch (garbled_request "/") (world0 []) = (Normal resp, world0 [])
    /\ status resp = 200
    /\ prop (json_of resp) "endpoints"
       = JObj [("chat", JStr "/v1/chat/completions");
               ("embeddings", JStr "/v1/embeddings");
               ("models", JStr "/v1/models")]
    /\ prop (json_of resp) "message" = JStr "OpenAI-compatible Workers AI API".
Proof.
  apply (root_serves_info_document (H := scripted_host)
           (garbled_request "/") (world0 []));
    [vm_compute; discriminate|reflexivity].
Defined.

Lemma unrouted_witness :
  exists resp,
    fetch (get_request "/v1/models/") (world0 []) = (Normal resp, world0 [])
    /\ status resp = 404
    /\ json_of resp = JObj [("error", JStr "Not found")].
Proof.
  apply (unrouted_path_is_not_found (H := scripted_host)
           (get_request "/v1/models/") (world0 []));
    [vm_compute; discriminate|].
  unfold routed. cbn. intuition discriminate.
Defined.

Lemma logged_once_witness :
  exists resp w',
    fetch (garbled_request "/v1/embeddings") (world0 []) = (Normal resp, w')
    /\ status resp = 500
    /\ exists label e, console w' = [(label, e)].
Proof.
  destruct (fetch (H := scripted_host) (garbled_request "/v1/embeddings")
              (world0 [])) as [[resp|e] w'] eqn:E;
    [|vm_compute in E; discriminate E].
  assert (Hst : status resp = 500)
    by (vm_compute in E; injection E as <- <-; reflexivity).
  destruct (faults_are_logged_once (H := scripted_host) _ _ _ _ E)
    as [Hlog _].
  exists resp, w'. split; [reflexivity|]. split; [exact Hst|].
  exact (Hlog Hst).
Defined.

Lemma typed_json_witness :
  exists resp w',
    fetch (get_request "/nowhere") (world0 []) = (Normal resp, w')
    /\ headers resp = ("Content-Type", "application/json") :: corsHeaders.
Proof.
  destruct (fetch (H := scripted_host) (get_request "/nowhere") (world0 []))
    as [[resp|e] w'] eqn:E; [|vm_compute in E; discriminate E].
  destruct (answers_are_typed_json (H := scripted_host) _ _ _ _ E)
    as [Hh _].
  exists resp, w'. split; [reflexivity|]. apply Hh.
  vm_compute. discriminate.
Defined.

Lemma handler_fault_witness :
  exists e w',
    handleChatCompletions (null_body_request "/v1/chat/completions")
      corsHeaders (world0 [])
    = (Throw e, w').
Proof.
  apply (proj1 (handlers_fault_only_on_body (H := scripted_host)
                  (null_body_request "/v1/chat/completions") corsHeaders
                  (world0 []))).
  split; [reflexivity|]. right. exists JNull. split; reflexivity.
Defined.

Lemma null_body_witness :
  exists resp w' k,
    fetch (null_body_request "/v1/embeddings") (world0 [Normal (vector 1 2)])
    = (Normal resp, w')
    /\ status resp = 500
    /\ json_of resp
       = JObj [("error", JStr "Internal server error");
               ("message", @TypeError_message scripted_host JNull k)]
    /\ (k = "messages" \/ k = "input")
    /\ ai_calls w' = [].
Proof.
  exact (null_body_is_internal_error (H := scripted_host)
           (null_body_request "/v1/embeddings")
           (world0 [Normal (vector 1 2)]) JNull
           eq_refl eq_refl eq_refl (or_intror eq_refl)).
Defined.

Lemma chat_call_witness :
  exists c,
    ai_calls (snd (handleChatCompletions chat_request corsHeaders
                     (world0 [Normal (JStr "Paris")])))
    = [c]
    /\ call_model c = JStr "@cf/meta/llama-3.1-8b-instruct"
    /\ prop (call_params c) "messages" = hello_messages
    /\ prop (call_params c) "stream" = JBool false
    /\ prop (call_params c) "model" = JUndefined
    /\ prop (call_params c) "max_tokens" = JNum 150.
Proof.
  destruct (chat_call_forwards_body (H := scripted_host)
              chat_request corsHeaders (world0 [Normal (JStr "Paris")])
              _ [JObj [("role", JStr "user"); ("content", JStr "Hello!")]]
              eq_refl eq_refl) as (c & Hlog & Hmodel & Hms & Hs & Hmo & Hk).
  - repeat constructor; cbn; intuition discriminate.
  - reflexivity.
  - exists c. split; [exact Hlog|]. split; [exact Hmodel|].
    split; [exact Hms|]. split; [exact Hs|]. split; [exact Hmo|].
    apply Hk; discriminate.
Defined.

Lemma chat_fault_witness :
  exists resp w',
    handleChatCompletions chat_request corsHeaders
      (world0 [Throw (NonError (JStr "boom"))])
    = (Normal resp, w')
    /\ status resp = 500
    /\ json_of resp = JObj [("error", JStr "Failed to generate completion");
                            ("message", JStr "Unknown error")].
Proof.
  destruct (chat_backend_fault_is_reported (H := scripted_host)
              chat_request corsHeaders
              (world0 [Throw (NonError (JStr "boom"))])
              _ _ eq_refl eq_refl eq_refl) as (_ & Hnon & _).
  exact (Hnon _ _ eq_refl).
Defined.

Lemma chat_metadata_witness :
  exists resp w',
    handleChatCompletions chat_request corsHeaders (tick0 1748131199999)
    = (Normal resp, w')
    /\ host w' = 1748131200013
    /\ prop (json_of resp) "id" = JStr "chatcmpl-1748131199999"
    /\ prop (json_of resp) "created" = JNum 1748131200
    /\ prop (json_of resp) "model" = JStr "@cf/meta/llama-3.1-8b-instruct".
Proof.
  destruct (chat_envelope_metadata (H := ticking_host)
              chat_request corsHeaders (tick0 1748131199999)
              _ _ _ _ 1748131199999 1748131200006 1748131200006 1748131200013
              eq_refl eq_refl eq_refl eq_refl eq_refl eq_refl eq_refl)
    as (resp & w' & created & choice & E & Hh & Hid & Hc & Hb & Hm & _).
  exists resp, w'. split; [exact E|]. split; [exact Hh|].
  split; [exact Hid|]. split; [|exact Hm].
  rewrite Hc. f_equal. lia.
Defined.

Lemma calls_follow_input_witness :
  exists calls,
    ai_calls (snd (handleEmbeddings batch_request corsHeaders
                     (world0 [Normal (vector 1 2);
                              Throw (ErrorObj "Error" (JStr "busy"))])))
    = calls
    /\ map call_params calls = [text_param (JStr "a"); text_param (JStr "b")]
    /\ Forall (fun c => call_model c = default_embedding_model) calls.
Proof.
  destruct (embedding_calls_follow_input (H := scripted_host)
              batch_request corsHeaders
              (world0 [Normal (vector 1 2);
                       Throw (ErrorObj "Error" (JStr "busy"))])
              _ eq_refl eq_refl eq_refl)
    as (calls & Hlog & Hmodel & Hparams & _).
  exists calls. split; [exact Hlog|]. split; [|exact Hmodel].
  rewrite Hparams. vm_compute in Hlog. subst calls. reflexivity.
Defined.

Lemma normalized_vectors_witness :
  exists resp w' data d,
    handleEmbeddings batch_request corsHeaders
      (world0 [Normal (vector 1 2); Normal (JArr [JNum 3]);
               Normal (vector 5 6)])
    = (Normal resp, w')
    /\ prop (json_of resp) "data" = JArr data
    /\ nth_error data 1 = Some d
    /\ prop d "embedding" = JArr [JNum 3].
Proof.
  destruct (handleEmbeddings (H := scripted_host) batch_request corsHeaders
              (world0 [Normal (vector 1 2); Normal (JArr [JNum 3]);
                       Normal (vector 5 6)]))
    as [[resp|e] w'] eqn:E; [|vm_compute in E; discriminate E].
  assert (Hst : status resp = 200)
    by (vm_compute in E; injection E as <- <-; reflexivity).
  assert (Hlog : exists c0 c2,
             ai_calls w'
             = ai_calls (world0 [Normal (vector 1 2); Normal (JArr [JNum 3]);
                                 Normal (vector 5 6)])
               ++ [c0;
                   {| call_model := default_embedding_model;
                      call_params := text_param (JStr "b");
                      call_result := Normal (JArr [JNum 3]) |};
                   c2])
    by (vm_compute in E; injection E as <- <-; eexists; eexists; reflexivity).
  destruct Hlog as (c0 & c2 & Hlog).
  destruct (embedding_vectors_are_normalized (H := scripted_host)
              batch_request corsHeaders _ _ resp w' _
              eq_refl eq_refl eq_refl E Hst Hlog)
    as (data & Hd & Hk).
  destruct (Hk 1%nat _ eq_refl) as (r & d & Hr & Hn & He & _).
  exists resp, w', data, d. split; [reflexivity|]. split; [exact Hd|].
  split; [exact Hn|]. rewrite He. cbn in Hr. injection Hr as <-.
  reflexivity.
Defined.

Lemma envelope_witness :
  exists resp w',
    handleEmbeddings scalar_request corsHeaders (world0 [Normal (vector 1 2)])
    = (Normal resp, w')
    /\ prop (json_of resp) "object" = JStr "list"
    /\ prop (json_of resp) "model" = JStr "@cf/baai/bge-large-en-v1.5"
    /\ prop (json_of resp) "usage"
       = JObj [("prompt_tokens", JNum 0); ("total_tokens", JNum 0)].
Proof.
  destruct (handleEmbeddings (H := scripted_host) scalar_request corsHeaders
              (world0 [Normal (vector 1 2)]))
    as [[resp|e] w'] eqn:E; [|vm_compute in E; discriminate E].
  assert (Hst : status resp = 200)
    by (vm_compute in E; injection E as <- <-; reflexivity).
  destruct (embedding_envelope_echoes_model (H := scripted_host)
              scalar_request corsHeaders _ _ resp w'
              eq_refl eq_refl eq_refl E Hst)
    as (Ho & Hm & _ & _ & Hu).
  exists resp, w'. split; [reflexivity|]. split; [exact Ho|].
  split; [exact Hm|exact Hu].
Defined.

Lemma backend_reached_witness :
  method chat_request = "POST"
  /\ exists b,
      json chat_request = Normal b
      /\ nullish b = false
      /\ (pathname chat_request = "/v1/chat/completions"
          /\ isArray (prop b "messages") = true
          \/ pathname chat_request = "/v1/embeddings"
             /\ truthy (prop b "input") = true).
Proof.
  apply (backend_reached_only_by_valid_posts (H := scripted_host)
           chat_request (world0 [Normal (JStr "Paris")])).
  vm_compute. discriminate.
Defined.

Lemma chat_status_witness :
  exists resp w',
    handleChatCompletions no_messages_request corsHeaders (world0 [])
    = (Normal resp, w')
    /\ status resp = 400.
Proof.
  apply (proj2 (chat_status_table (H := scripted_host)
                  no_messages_request corsHeaders (world0 []))).
  split; [reflexivity|]. eexists. repeat split.
Defined.

Lemma embeddings_status_witness :
  exists resp w',
    handleEmbeddings (get_request "/v1/embeddings") corsHeaders (world0 [])
    = (Normal resp, w')
    /\ status resp = 405.
Proof.
  apply (proj1 (embeddings_status_table (H := scripted_host)
                  (get_request "/v1/embeddings") corsHeaders (world0 []))).
  vm_compute. discriminate.
Defined.

Lemma unreadable_result_witness :
  exists resp,
    fst (handleEmbeddings batch_request corsHeaders
           (world0 [Normal (vector 1 2); Normal JNull; Normal (vector 5 6)]))
    = Normal resp
    /\ status resp = 500
    /\ prop (json_of resp) "error" = JStr "Failed to generate embeddings".
Proof.
  assert (Hbad : Exists unreadable
            [ {| call_model := default_embedding_model;
                 call_params := JObj [("text", JStr "a")];
                 call_result := Normal (vector 1 2) |};
              {| call_model := default_embedding_model;
                 call_params := JObj [("text", JStr "b")];
                 call_result := Normal JNull |} ]).
  { apply Exists_cons_tl, Exists_cons_hd. exists JNull. now split. }
  destruct (unreadable_result_aborts_batch (H := scripted_host)
              batch_request corsHeaders
              (world0 [Normal (vector 1 2); Normal JNull; Normal (vector 5 6)])
              _ _ eq_refl eq_refl eq_refl eq_refl Hbad)
    as (resp & v & E & Hst & Hj & _).
  exists resp. split; [exact E|]. split; [exact Hst|].
  rewrite Hj. reflexivity.
Defined.
